(** * go-fork/sms: the provider dispatch engine

    A shallow embedding of the retry engine (retry/retry.go), the template
    renderer (model/message.go), request validation (model/request.go) and
    the dispatch registry (sms.go), followed by the properties the
    specification states about them.

    Conventions.
    - Go [int] and [time.Duration] (int64 nanoseconds) are [Z];
      [float64] is the kernel's binary64 [float].
    - Go strings are [string] (sequences of 8-bit characters).
    - A Go [error] value is a term of the inductive [error]; [nil] is [None]
      of [option error].
    - A Go closure with side effects is a state transformer; a map passed by
      reference lives in a store indexed by locations. *)

From Stdlib Require Import ZArith Floats String Ascii List Bool Lia DecimalString.
From stdpp Require Import gmap strings.
Import ListNotations.

Local Open Scope string_scope.
Local Open Scope Z_scope.

(** ** Go runtime: strings, fmt, errors *)

Module gostrings.

(** [strings.Contains(s, substr)]. *)
Fixpoint Contains (s substr : string) : bool :=
  match s with
  | EmptyString => String.prefix substr EmptyString
  | String _ s' => String.prefix substr s || Contains s' substr
  end.

(** [strings.HasPrefix(s, prefix)]. *)
Definition HasPrefix (s prefix : string) : bool := String.prefix prefix s.

Definition lower_ascii (c : ascii) : ascii :=
  let n := nat_of_ascii c in
  if (65 <=? n)%nat && (n <=? 90)%nat then ascii_of_nat (n + 32) else c.

(** [strings.ToLower(s)] on ASCII text: the letters A-Z are mapped to a-z,
    every other byte is kept. *)
Fixpoint ToLower (s : string) : string :=
  match s with
  | EmptyString => EmptyString
  | String c s' => String (lower_ascii c) (ToLower s')
  end.

(** [strings.ReplaceAll(s, old, new)] for a one-byte [old] and an empty
    [new], the only form the sources use: every occurrence is dropped. *)
Fixpoint RemoveAll (s : string) (old : ascii) : string :=
  match s with
  | EmptyString => EmptyString
  | String c s' =>
      if Ascii.eqb c old then RemoveAll s' old else String c (RemoveAll s' old)
  end.

(** [%d] of an integer. *)
Definition itoa (z : Z) : string := NilZero.string_of_int (Z.to_int z).

(** The double quote character, for [%q]. *)
Definition dquote : string := String (ascii_of_nat 34) EmptyString.

End gostrings.

Module goerrors.
Import gostrings.

(** The error values of the program.  Each constructor is one dynamic type
    (or one package-level sentinel) that the sources build or test against. *)
Inductive error : Type :=
| errorString (s : string)                 (* errors.New(s) *)
| Canceled                                 (* context.Canceled *)
| DeadlineExceeded                         (* context.DeadlineExceeded *)
| ErrMaxAttemptsReached                    (* retry.ErrMaxAttemptsReached *)
| OpError (Op : string) (Err : error)      (* &net.OpError{Op: Op, Err: Err} *)
| URLError (Op URL : string) (Err : error) (* &url.Error{Op, URL, Err} *)
| HTTPError (StatusCode : Z) (Message : string)      (* *retry.HTTPError *)
| ValidationError (Field Message : string)           (* *model.ValidationError *)
| wrapError (msg : string) (err : error).  (* fmt.Errorf with one %w verb *)

(** The [Error() string] method of each dynamic type.
    - [net.OpError] with no Net, Source or Addr prints [Op: Err].
    - [url.Error] prints [Op "URL": Err]; the quoting of [%q] is the
      identity on URLs without quote, backslash or control characters.
    - [retry.HTTPError] and [model.ValidationError] as in the sources. *)
Fixpoint Error (e : error) : string :=
  match e with
  | errorString s => s
  | Canceled => "context canceled"
  | DeadlineExceeded => "context deadline exceeded"
  | ErrMaxAttemptsReached => "maximum retry attempts reached"
  | OpError op err => op +:+ ": " +:+ Error err
  | URLError op url err => op +:+ " " +:+ dquote +:+ url +:+ dquote +:+ ": " +:+ Error err
  | HTTPError code msg =>
      "HTTP error: status code: " +:+ itoa code +:+ ", message: " +:+ msg
  | ValidationError field msg => "validation error: " +:+ field +:+ " - " +:+ msg
  | wrapError msg _ => msg
  end.

(** [errors.Unwrap]: the [Unwrap() error] method where the type has one. *)
Definition Unwrap (e : error) : option error :=
  match e with
  | OpError _ err | URLError _ _ err | wrapError _ err => Some err
  | _ => None
  end.

(** Go's [==] between an error of the chain and a package-level sentinel.
    Errors made by separate calls of [errors.New], [fmt.Errorf] or [&T{}]
    are distinct pointers and never equal. *)
Definition sentinel_eqb (e target : error) : bool :=
  match e, target with
  | Canceled, Canceled => true
  | DeadlineExceeded, DeadlineExceeded => true
  | ErrMaxAttemptsReached, ErrMaxAttemptsReached => true
  | _, _ => false
  end.

(** [errors.Is(err, target)]: some error of the chain is [==] to [target]
    (none of the types has an [Is] method). *)
Fixpoint Is (err target : error) : bool :=
  sentinel_eqb err target ||
  match err with
  | OpError _ e | URLError _ _ e | wrapError _ e => Is e target
  | _ => false
  end.

(** The dynamic types whose method set has [Timeout() bool] and
    [Temporary() bool] next to [Error() string], that is, which implement
    the interface [net.Error]: [*net.OpError], [*url.Error], and
    [context.deadlineExceededError], the type of [context.DeadlineExceeded]
    (package context declares its three methods [Error], [Timeout] and
    [Temporary]).  [context.Canceled] is made by [errors.New] and has
    [Error] only. *)
Definition implements_net_Error (e : error) : bool :=
  match e with
  | OpError _ _ | URLError _ _ _ | DeadlineExceeded => true
  | _ => false
  end.

(** [errors.As(err, &netErr)] with [var netErr net.Error]. *)
Fixpoint As_net_Error (err : error) : bool :=
  implements_net_Error err ||
  match err with
  | OpError _ e | URLError _ _ e | wrapError _ e => As_net_Error e
  | _ => false
  end.

(** [errors.As(err, &urlErr)] with [var urlErr *url.Error]. *)
Fixpoint As_url_Error (err : error) : bool :=
  match err with
  | URLError _ _ _ => true
  | OpError _ e | wrapError _ e => As_url_Error e
  | _ => false
  end.

(** [errors.As(err, &httpErr)] with [var httpErr *HTTPError]: the status
    code of the first [*HTTPError] of the chain. *)
Fixpoint As_HTTPError (err : error) : option Z :=
  match err with
  | HTTPError code _ => Some code
  | OpError _ e | URLError _ _ e | wrapError _ e => As_HTTPError e
  | _ => None
  end.

End goerrors.

(** ** retry/retry.go *)

Module retry.
Import gostrings goerrors.

(** [float64(z)]: the integer rounded to the nearest binary64. *)
Definition float64_of_Z (z : Z) : float :=
  SF2Prim (binary_normalize prec emax z 0 false).

Definition minInt64 : Z := -9223372036854775808.
Definition maxInt64 : Z := 9223372036854775807.

(** [time.Duration(f)]: the float truncated toward zero.  Outside int64
    (and for NaN) Go leaves the result to the implementation; amd64 yields
    the minimum int64, which is what is written here. *)
Definition Duration_of_float64 (f : float) : Z :=
  match Prim2SF f with
  | S754_zero _ => 0
  | S754_finite s m e =>
      let mag := match e with
                 | Z0 => Zpos m
                 | Zpos p => Z.shiftl (Zpos m) (Zpos p)
                 | Zneg p => Z.shiftr (Zpos m) (Zpos p)
                 end in
      let v := if s then - mag else mag in
      if (minInt64 <=? v) && (v <=? maxInt64) then v else minInt64
  | _ => minInt64
  end.

(** [Config] holds retry configuration settings. *)
Record Config : Type := {
  MaxAttempts : Z;
  InitialDelay : Z;
  MaxDelay : Z;
  Multiplier : float;
  RetriableErrors : option (error -> bool)
}.

Definition Millisecond : Z := 1000000.
Definition Second : Z := 1000000000.


(** [IsRetriable] determines if an error should be retried.  The argument
    is a non-nil error; [IsRetriable(nil)] is [false]. *)
Definition IsRetriable (err : error) : bool :=
  if As_net_Error err then true
  else if Is err DeadlineExceeded || Is err Canceled then false
  else if As_url_Error err then true
  else
    let errStr := Error err in
    if Contains errStr "status code: 5" ||
       Contains errStr "500" ||
       Contains errStr "502" ||
       Contains errStr "503" ||
       Contains errStr "504" then true
    else if Contains (ToLower errStr) "timeout" ||
            Contains (ToLower errStr) "connection refused" ||
            Contains (ToLower errStr) "connection reset" ||
            Contains (ToLower errStr) "temporary" ||
            Contains (ToLower errStr) "too many requests" ||
            Contains (ToLower errStr) "service unavailable" then true
    else
      match As_HTTPError err with
      | Some code => (500 <=? code) || (code =? 429)
      | None => false
      end.

(** [IsRetriable] on a possibly nil error. *)
Definition IsRetriable_opt (err : option error) : bool :=
  match err with
  | None => false
  | Some e => IsRetriable e
  end.

(** How a context ends: cancelled by its owner, or its deadline passed. *)
Inductive Done : Type := canceled | deadlineExceeded.

(** [ctx.Err()] once the context is done. *)
Definition ctxErr (d : Done) : error :=
  match d with
  | canceled => Canceled
  | deadlineExceeded => DeadlineExceeded
  end.

(** The caller's context, as [Do] observes it.  [ctx k] tells how the
    [select] of the wait that follows attempt [k] (counted from 0) ends:
    [Some d] when it receives from [ctx.Done()], [None] when it receives
    from the timer. *)
Definition Context : Type := nat -> option Done.

(** [context.Background()]: never done. *)
Definition Background : Context := fun _ => None.

(** What a caller can observe of a run of [Do] besides its result: how
    often [fn] was called, and the durations given to [time.NewTimer], in
    the order of the waits. *)
Record Trace : Type := { calls : nat; waits : list Z }.

Definition noTrace : Trace := {| calls := 0; waits := [] |}.
Definition called (t : Trace) : Trace :=
  {| calls := Datatypes.S (calls t); waits := waits t |}.
Definition waited (t : Trace) (d : Z) : Trace :=
  {| calls := calls t; waits := waits t ++ [d] |}.

(** [fmt.Errorf("%w: %v", ErrMaxAttemptsReached, err)]: the text of [err]
    after the marker's, with the marker (not [err]) as the wrapped error. *)
Definition maxAttemptsError (err : error) : error :=
  wrapError (Error ErrMaxAttemptsReached +:+ ": " +:+ Error err)
            ErrMaxAttemptsReached.

(** [time.Duration(float64(delay) * config.Multiplier)], then the cap at
    [config.MaxDelay]. *)
Definition nextDelay (config : Config) (delay : Z) : Z :=
  let nextDelay :=
    Duration_of_float64 (PrimFloat.mul (float64_of_Z delay) (Multiplier config)) in
  if nextDelay >? MaxDelay config then MaxDelay config else nextDelay.

Section Do.

Context {St : Type}.
Variable ctx : Context.
Variable config : Config.
(** The closure [fn]: what it returns and how it changes the variables it
    has captured. *)
Variable fn : St -> option error * St.

Definition isRetriable : error -> bool :=
  match RetriableErrors config with
  | Some f => f
  | None => IsRetriable
  end.

(** The retry loop [for attempt := 0; attempt < config.MaxAttempts; attempt++].
    [remaining] is the number of values of [attempt] for which the loop
    condition still holds, [MaxAttempts - attempt]; [err] and [delay] are the
    local variables of [Do]. *)
Fixpoint loop (remaining : nat) (attempt : Z) (delay : Z) (err : option error)
    (s : St) (t : Trace) : option error * St * Trace :=
  match remaining with
  | O => (err, s, t)
  | Datatypes.S remaining' =>
      let '(r, s) := fn s in
      let t := called t in
      match r with
      | None => (None, s, t)
      | Some e =>
          if (attempt =? MaxAttempts config - 1) || negb (isRetriable e) then
            if attempt =? MaxAttempts config - 1
            then (Some (maxAttemptsError e), s, t)
            else (Some e, s, t)
          else
            let delay := nextDelay config delay in
            let t := waited t delay in
            match ctx (Z.to_nat attempt) with
            | Some d => (Some (ctxErr d), s, t)
            | None => loop remaining' (attempt + 1) delay (Some e) s t
            end
      end
  end.

(** [Do] executes the given function with exponential backoff retry logic. *)
Definition Do (s : St) : option error * St * Trace :=
  if MaxAttempts config <=? 0 then
    (Some (errorString "retry attempts must be greater than 0"), s, noTrace)
  else
    loop (Z.to_nat (MaxAttempts config)) 0 (InitialDelay config) None s noTrace.

(** The captured variables of [fn] after [n] calls of it. *)
Fixpoint after (n : nat) (s : St) : St :=
  match n with
  | O => s
  | Datatypes.S n' => after n' (snd (fn s))
  end.

(** The result of the call of [fn] numbered [n] (from 0). *)
Definition outcome (n : nat) (s : St) : option error := fst (fn (after n s)).

(** The first [n] durations the loop computes from the value [delay] of its
    variable: each is [nextDelay] of the one before. *)
Fixpoint delays (n : nat) (delay : Z) : list Z :=
  match n with
  | O => []
  | Datatypes.S n' => nextDelay config delay :: delays n' (nextDelay config delay)
  end.

(** The waits as the specification words them: the first is the initial
    delay itself, each later one is [nextDelay] of the one before. *)
Definition specified_waits (n : nat) : list Z :=
  match n with
  | O => []
  | Datatypes.S n' => InitialDelay config :: delays n' (InitialDelay config)
  end.

End Do.

(** What holds of a run of the loop entered with the trace [t], the state
    [s] and the variable [err], whatever the operation and the context do. *)
Definition loop_post {St : Type} (config : Config) (fn : St -> option error * St)
    (remaining : nat) (err : option error) (s : St) (t : Trace)
    (res : option error * St * Trace) : Prop :=
  let c := calls t in
  let c' := calls (snd res) in
  (c <= c' <= c + remaining)%nat /\
  (exists ws, waits (snd res) = (waits t ++ ws)%list /\
              Forall (fun w => w <= MaxDelay config) ws /\
              (length ws <= c' - c)%nat) /\
  snd (fst res) = after fn (c' - c) s /\
  (fst (fst res) = None ->
   (remaining = O /\ err = None) \/
   ((c < c')%nat /\ outcome fn (c' - c - 1) s = None)).

(** [DoWithOptions] is a simpler version of [Do] that takes individual
    parameters instead of a [Config]. *)
Definition DoWithOptions {St : Type} (ctx : Context) (attempts : Z) (initialDelay : Z)
    (fn : St -> option error * St) (s : St) : option error * St * Trace :=
  let config := {| MaxAttempts := attempts;
                   InitialDelay := initialDelay;
                   MaxDelay := 30 * Second;
                   Multiplier := 2.0%float;
                   RetriableErrors := None |} in
  Do ctx config fn s.

(** [NewHTTPError] creates a new [HTTPError]. *)
Definition NewHTTPError (statusCode : Z) (message : string) : error :=
  HTTPError statusCode message.

(** [RetryableHTTPCodes] returns the HTTP status codes that are considered
    retriable. *)
Definition RetryableHTTPCodes : list Z := [500; 502; 503; 504; 429].

(** [IsRetriableHTTPCode] checks if an HTTP status code is retriable: the
    loop over [RetryableHTTPCodes()]. *)
Fixpoint hasCode (statusCode : Z) (codes : list Z) : bool :=
  match codes with
  | [] => false
  | code :: codes' => if statusCode =? code then true else hasCode statusCode codes'
  end.

Definition IsRetriableHTTPCode (statusCode : Z) : bool :=
  hasCode statusCode RetryableHTTPCodes.

End retry.

(** ** model/message.go, model/request.go, model/response.go *)

Module model.
Import gostrings goerrors.

(** A value of a data bag ([interface{}]).  [VOther] stands for a value of
    any other type (a float, a nested map, ...) and carries the text that
    [%v] prints for it. *)
Inductive value : Type :=
| VString (s : string)
| VInt (n : Z)
| VBool (b : bool)
| VOther (text : string).

(** [fmt.Sprintf("%v", value)]. *)
Definition Sprintf_v (v : value) : string :=
  match v with
  | VString s => s
  | VInt n => itoa n
  | VBool true => "true"
  | VBool false => "false"
  | VOther text => text
  end.

(** A [map[string]interface{}] is a reference: the maps live in a heap and
    a variable of map type holds a location, or [nil]. *)
Abbreviation loc := positive.
Abbreviation heap := (gmap loc (gmap string value)).
Abbreviation mapref := (option loc).

(** The map a reference points to; reading a [nil] map finds nothing. *)
Definition deref (h : heap) (r : mapref) : gmap string value :=
  match r with
  | Some l => default ∅ (h !! l)
  | None => ∅
  end.

(** [data[key] = v] on a non-nil map. *)
Definition store (h : heap) (l : loc) (key : string) (v : value) : heap :=
  <[l := <[key := v]> (default ∅ (h !! l))]> h.

(** [Message] represents the core message structure. *)
Record Message : Type := { From : string; To : string; By : string }.

Definition lbrace : ascii := ascii_of_nat 123.
Definition rbrace : ascii := ascii_of_nat 125.

(** [regexp.MustCompile(`{([^{}]+)}`).ReplaceAllStringFunc(src, repl)]:
    the leftmost non-overlapping matches, found in one pass.  [pending] is
    [Some acc] after an opening brace followed by the brace-free run [acc]:
    a closing brace then completes a match unless [acc] is empty, another
    opening brace restarts the match there, and the end of the text leaves
    the run as it is. *)
Fixpoint ReplaceAllStringFunc (repl : string -> string) (src : string)
    (pending : option string) : string :=
  match src with
  | EmptyString =>
      match pending with
      | None => EmptyString
      | Some acc => String lbrace acc
      end
  | String c src' =>
      match pending with
      | None =>
          if Ascii.eqb c lbrace then ReplaceAllStringFunc repl src' (Some EmptyString)
          else String c (ReplaceAllStringFunc repl src' None)
      | Some acc =>
          if Ascii.eqb c lbrace then
            String lbrace acc +:+ ReplaceAllStringFunc repl src' (Some EmptyString)
          else if Ascii.eqb c rbrace then
            match acc with
            | EmptyString =>
                String lbrace (String rbrace (ReplaceAllStringFunc repl src' None))
            | _ =>
                repl (String lbrace acc +:+ String rbrace EmptyString)
                  +:+ ReplaceAllStringFunc repl src' None
            end
          else ReplaceAllStringFunc repl src' (Some (acc +:+ String c EmptyString))
      end
  end.

(** The callback of [Render]: the value of the placeholder's key, or the
    placeholder itself. *)
Definition replacePlaceholder (data : gmap string value) (placeholder : string) : string :=
  let key := substring 1 (String.length placeholder - 2) placeholder in
  match data !! key with
  | Some value => Sprintf_v value
  | None => placeholder
  end.

(** [if _, exists := data[key]; !exists { data[key] = v }]. *)
Definition setIfAbsent (h : heap) (l : loc) (key : string) (v : value) : heap :=
  match deref h (Some l) !! key with
  | Some _ => h
  | None => store h l key v
  end.

(** [Render] processes a template string with provided data.  It returns
    the text and the heap it leaves behind. *)
Definition Render (m : Message) (template : string) (data : mapref) (h : heap)
    : string * heap :=
  if String.eqb template EmptyString then (EmptyString, h)
  else
    let '(l, h) :=
      match data with
      | None => let l := fresh (dom h) in (l, <[l := ∅]> h)
      | Some l => (l, h)
      end in
    let h := setIfAbsent h l "from" (VString (From m)) in
    let h := setIfAbsent h l "to" (VString (To m)) in
    let h := setIfAbsent h l "by" (VString (By m)) in
    let result :=
      ReplaceAllStringFunc (replacePlaceholder (deref h (Some l))) template None in
    (result, h).

(** The three entries [Render] derives from the message. *)
Definition identityBag (m : Message) : gmap string value :=
  {[ "from" := VString (From m) ]} ∪ {[ "to" := VString (To m) ]}
    ∪ {[ "by" := VString (By m) ]}.

Definition isDigit (c : ascii) : bool :=
  let n := nat_of_ascii c in (48 <=? n)%nat && (n <=? 57)%nat.

(** [regexp.MustCompile(`^\d+$`).MatchString(s)]. *)
Fixpoint allDigits (s : string) : bool :=
  match s with
  | EmptyString => true
  | String c s' => isDigit c && allDigits s'
  end.

Definition matchDigits (s : string) : bool :=
  match s with
  | EmptyString => false
  | _ => allDigits s
  end.

(** [ValidatePhoneNumber] performs basic validation on a phone number. *)
Definition ValidatePhoneNumber (phoneNumber : string) : bool :=
  let cleaned := RemoveAll phoneNumber " " in
  let cleaned := RemoveAll cleaned "-" in
  let cleaned := RemoveAll cleaned "(" in
  let cleaned := RemoveAll cleaned ")" in
  if HasPrefix cleaned "+" then
    let digits := substring 1 (String.length cleaned - 1) cleaned in
    if (8 <=? String.length digits)%nat && matchDigits digits then true else false
  else
    if (8 <=? String.length cleaned)%nat && matchDigits cleaned then true else false.

Record SendSMSRequest : Type := {
  sms_Message : Message;
  sms_Template : string;
  sms_Data : mapref;
  sms_Options : mapref
}.

Record SendVoiceRequest : Type := {
  voice_Message : Message;
  voice_Template : string;
  voice_Data : mapref;
  voice_Options : mapref
}.

(** [Validate] of a request: the recipient, then the sender. *)
Definition validateMessage (m : Message) : option error :=
  if negb (ValidatePhoneNumber (To m)) then
    Some (ValidationError "to" "invalid recipient phone number")
  else if String.eqb (From m) EmptyString then
    Some (ValidationError "from" "sender identifier cannot be empty")
  else None.

Definition SendSMSRequest_Validate (r : SendSMSRequest) : option error :=
  validateMessage (sms_Message r).


(** [SendSMSResponse]; times are nanoseconds since the epoch. *)
Record SendSMSResponse : Type := {
  MessageID : string;
  sms_Status : string;
  sms_Provider : string;
  SentAt : Z;
  sms_Cost : float;
  sms_Currency : string;
  sms_ProviderResponse : mapref
}.

Record SendVoiceResponse : Type := {
  CallID : string;
  voice_Status : string;
  voice_Provider : string;
  StartedAt : Z;
  EndedAt : option Z;
  Duration : Z;
  voice_Cost : float;
  voice_Currency : string;
  voice_ProviderResponse : mapref
}.

(** The zero values [model.SendSMSResponse{}] and [model.SendVoiceResponse{}]. *)
Definition zeroSMSResponse : SendSMSResponse := {|
  MessageID := EmptyString; sms_Status := EmptyString; sms_Provider := EmptyString;
  SentAt := 0; sms_Cost := 0%float; sms_Currency := EmptyString;
  sms_ProviderResponse := None
|}.

Definition zeroVoiceResponse : SendVoiceResponse := {|
  CallID := EmptyString; voice_Status := EmptyString; voice_Provider := EmptyString;
  StartedAt := 0; EndedAt := None; Duration := 0; voice_Cost := 0%float;
  voice_Currency := EmptyString; voice_ProviderResponse := None
|}.

(** [ValidatePhoneNumber] in two steps: the number with the formatting
    characters removed, and the test made on it. *)
Definition cleaned (phoneNumber : string) : string :=
  RemoveAll (RemoveAll (RemoveAll (RemoveAll phoneNumber " ") "-") "(") ")".

Definition plausible (cleaned : string) : bool :=
  if HasPrefix cleaned "+" then
    let digits := substring 1 (String.length cleaned - 1) cleaned in
    if (8 <=? String.length digits)%nat && matchDigits digits then true else false
  else
    if (8 <=? String.length cleaned)%nat && matchDigits cleaned then true else false.

(** The characters [ValidatePhoneNumber] removes before it looks at the
    number. *)
Definition isFormatting (c : ascii) : bool :=
  Ascii.eqb c " " || Ascii.eqb c "-" || Ascii.eqb c "(" || Ascii.eqb c ")".

(** The characters a number may be written with. *)
Definition allowedChar (c : ascii) : bool :=
  isDigit c || isFormatting c || Ascii.eqb c "+".

(** Every character of [s] satisfies [P]. *)
Fixpoint forallChars (P : ascii -> bool) (s : string) : bool :=
  match s with
  | EmptyString => true
  | String c s' => P c && forallChars P s'
  end.

(** The number of decimal digits in [s]. *)
Fixpoint countDigits (s : string) : nat :=
  match s with
  | EmptyString => O
  | String c s' => if isDigit c then S (countDigits s') else countDigits s'
  end.

Definition notLbrace (c : ascii) : bool := negb (Ascii.eqb c lbrace).
Definition notBrace (c : ascii) : bool :=
  negb (Ascii.eqb c lbrace) && negb (Ascii.eqb c rbrace).

(** The text of the placeholder for the variable [key]. *)
Definition placeholderOf (key : string) : string :=
  String lbrace (key +:+ String rbrace EmptyString).

End model.

(** ** config/config.go (the fields the dispatch engine reads) *)

Module config.

Record Config : Type := {
  DefaultProvider : string;
  HTTPTimeout : Z;
  RetryAttempts : Z;
  RetryDelay : Z;
  SMSTemplate : string;
  VoiceTemplate : string
}.

End config.

(** ** sms.go: the dispatch registry *)

Module sms.
Import gostrings goerrors model.

Section Registry.

(** The world behind the backends (network, vendor accounts): a backend
    call reads and changes it. *)
Context {W : Type}.

(** [model.Provider]: the interface every backend implements. *)
Record Provider : Type := {
  Name : string;
  provider_SendSMS : SendSMSRequest -> W -> (SendSMSResponse * option error) * W;
  provider_SendVoiceCall : SendVoiceRequest -> W -> (SendVoiceResponse * option error) * W
}.

(** [Module]: the registry.  [activeProvider] is [None] for a nil interface. *)
Record SMSModule : Type := {
  cfg : config.Config;
  providers : gmap string Provider;
  activeProvider : option Provider
}.

(** [NewModule], after the configuration file was loaded. *)
Definition NewModule (c : config.Config) : SMSModule :=
  {| cfg := c; providers := ∅; activeProvider := None |}.

Definition quoted (s : string) : string := "'" +:+ s +:+ "'".

(** [AddProvider] registers a provider with the module. *)
Definition AddProvider (m : SMSModule) (provider : Provider)
    : option error * SMSModule :=
  let providerName := Name provider in
  match providers m !! providerName with
  | Some _ =>
      (Some (errorString
               ("provider with name " +:+ quoted providerName +:+ " is already registered")),
       m)
  | None =>
      let m := {| cfg := cfg m;
                  providers := <[providerName := provider]> (providers m);
                  activeProvider := activeProvider m |} in
      if match activeProvider m with None => true | Some _ => false end
         || String.eqb (config.DefaultProvider (cfg m)) providerName
      then (None, {| cfg := cfg m; providers := providers m;
                     activeProvider := Some provider |})
      else (None, m)
  end.

(** [SwitchProvider] changes the active provider to the one with the
    specified name. *)
Definition SwitchProvider (m : SMSModule) (name : string)
    : option error * SMSModule :=
  match providers m !! name with
  | None => (Some (errorString ("provider " +:+ quoted name +:+ " not found")), m)
  | Some provider =>
      (None, {| cfg := cfg m; providers := providers m;
                activeProvider := Some provider |})
  end.

(** [GetProvider] returns a provider by name. *)
Definition GetProvider (m : SMSModule) (name : string) : option Provider * option error :=
  match providers m !! name with
  | None => (None, Some (errorString ("provider " +:+ quoted name +:+ " not found")))
  | Some provider => (Some provider, None)
  end.

(** [GetActiveProvider] returns the currently active provider. *)
Definition GetActiveProvider (m : SMSModule) : option Provider * option error :=
  match activeProvider m with
  | None => (None, Some (errorString "no active provider set"))
  | Some p => (Some p, None)
  end.

(** The retry configuration both send operations build. *)
Definition retryConfig (m : SMSModule) : retry.Config := {|
  retry.MaxAttempts := config.RetryAttempts (cfg m);
  retry.InitialDelay := config.RetryDelay (cfg m);
  retry.MaxDelay := 30 * retry.Second;
  retry.Multiplier := 2.0%float;
  retry.RetriableErrors := None
|}.

(** [fmt.Errorf(format + ": %w", RetryAttempts, err)] of the two send
    operations, [what] being the words between failed to send and after. *)
Definition sendError (what : string) (attempts : Z) (err : error) : error :=
  wrapError ("failed to send " +:+ what +:+ " after " +:+ itoa attempts
               +:+ " attempts: " +:+ Error err) err.

(** [SendSMS] sends an SMS message using the active provider with retry
    logic.  The closure given to [retry.Do] has captured [response] and
    reaches the world through the provider. *)
Definition SendSMS (m : SMSModule) (ctx : retry.Context) (req : SendSMSRequest)
    (w : W) : (SendSMSResponse * option error) * W * retry.Trace :=
  match activeProvider m with
  | None => ((zeroSMSResponse, Some (errorString "no active provider set")), w, retry.noTrace)
  | Some active =>
      match SendSMSRequest_Validate req with
      | Some err => ((zeroSMSResponse, Some err), w, retry.noTrace)
      | None =>
          let fn := fun '(_, w) =>
            let '((response, err), w) := provider_SendSMS active req w in
            (err, (response, w)) in
          let '(err, (response, w), t) :=
            retry.Do ctx (retryConfig m) fn (zeroSMSResponse, w) in
          match err with
          | Some err =>
              ((zeroSMSResponse,
                Some (sendError "SMS" (config.RetryAttempts (cfg m)) err)),
               w, t)
          | None =>
              let response :=
                if String.eqb (sms_Provider response) EmptyString then
                  {| MessageID := MessageID response;
                     sms_Status := sms_Status response;
                     sms_Provider := Name active;
                     SentAt := SentAt response;
                     sms_Cost := sms_Cost response;
                     sms_Currency := sms_Currency response;
                     sms_ProviderResponse := sms_ProviderResponse response |}
                else response in
              ((response, None), w, t)
          end
      end
  end.


(** The registry operations a caller can issue, and their effect on the
    module (the returned error set aside). *)
Inductive Op : Type :=
| OpAdd (provider : Provider)
| OpSwitch (name : string).

Definition apply (m : SMSModule) (o : Op) : SMSModule :=
  match o with
  | OpAdd provider => snd (AddProvider m provider)
  | OpSwitch name => snd (SwitchProvider m name)
  end.

Definition run (m : SMSModule) (ops : list Op) : SMSModule :=
  fold_left apply ops m.


(** Every backend of the registry is bound under its own name. *)
Definition keyed_by_name (m : SMSModule) : Prop :=
  forall name p, providers m !! name = Some p -> Name p = name.

(** The active backend, if set, is a currently registered entry. *)
Definition active_registered (m : SMSModule) : Prop :=
  forall p, activeProvider m = Some p -> providers m !! Name p = Some p.

(** The active backend is unset exactly when nothing is registered. *)
Definition active_iff_registered (m : SMSModule) : Prop :=
  activeProvider m = None <-> providers m = ∅.

(** The backend registered under the default name, if any, is active. *)
Definition default_is_active (m : SMSModule) : Prop :=
  forall p, providers m !! config.DefaultProvider (cfg m) = Some p ->
            activeProvider m = Some p.

(** The closure [SendSMS] hands to [retry.Do]. *)
Definition smsCall (active : Provider) (req : SendSMSRequest) : SendSMSResponse * W -> option error * (SendSMSResponse * W) :=
  fun '(_, w) =>
    let '((response, err), w) := provider_SendSMS active req w in (err, (response, w)).

End Registry.

Arguments Provider : clear implicits.
Arguments SMSModule : clear implicits.
Arguments Op : clear implicits.

End sms.

(** ** config/config.go: validation and provider sections *)

Module configfile.
Import gostrings goerrors.

(** An entry of [Config.Providers] ([interface{}]): the section of a
    provider, a [map[string]interface{}], or a value of another type. *)
Inductive section : Type :=
| SectionMap (fields : gmap string model.value)
| SectionOther.

(** [Config] with its provider sections: the fields of [config.Config]
    above and [Providers], which is [None] for a nil map. *)
Record Config : Type := {
  base : config.Config;
  Providers : option (gmap string section)
}.

Definition ErrMissingDefaultProvider : error := errorString "default provider is required".
Definition ErrNoProvidersConfigured : error :=
  errorString "at least one provider must be configured".
Definition ErrInvalidHTTPTimeout : error := errorString "HTTP timeout must be greater than 0".
Definition ErrInvalidRetryAttempts : error :=
  errorString "retry attempts must be non-negative".
Definition ErrInvalidRetryDelay : error := errorString "retry delay must be greater than 0".
Definition ErrMissingSMSTemplate : error := errorString "SMS template is required".
Definition ErrMissingVoiceTemplate : error := errorString "voice template is required".

(** [Validate] validates the configuration. *)
Definition Validate (c : Config) : option error :=
  if String.eqb (config.DefaultProvider (base c)) EmptyString then
    Some ErrMissingDefaultProvider
  else
    match Providers c with
    | None => Some ErrNoProvidersConfigured
    | Some ps =>
        if (size ps =? 0)%nat then Some ErrNoProvidersConfigured
        else
          match ps !! config.DefaultProvider (base c) with
          | None =>
              Some (errorString ("default provider '" +:+ config.DefaultProvider (base c)
                                   +:+ "' not found in configured providers"))
          | Some _ =>
              if config.HTTPTimeout (base c) <=? 0 then Some ErrInvalidHTTPTimeout
              else if config.RetryAttempts (base c) <? 0 then Some ErrInvalidRetryAttempts
              else if (0 <? config.RetryAttempts (base c))
                      && (config.RetryDelay (base c) <=? 0)
              then Some ErrInvalidRetryDelay
              else if String.eqb (config.SMSTemplate (base c)) EmptyString
              then Some ErrMissingSMSTemplate
              else if String.eqb (config.VoiceTemplate (base c)) EmptyString
              then Some ErrMissingVoiceTemplate
              else None
          end
    end.

(** [GetProviderConfig] returns the configuration for a specific provider. *)
Definition GetProviderConfig (c : Config) (providerName : string)
    : option (gmap string model.value) * option error :=
  match Providers c with
  | None => (None, Some (errorString "no providers configured"))
  | Some ps =>
      match ps !! providerName with
      | None =>
          (None, Some (errorString ("provider " +:+ providerName
                                      +:+ " not found in configuration")))
      | Some (SectionMap fields) => (Some fields, None)
      | Some SectionOther =>
          (None, Some (errorString ("invalid configuration format for provider "
                                      +:+ providerName)))
      end
  end.

(** [value.(string)] is the empty string. *)
Definition isEmptyString (v : model.value) : bool :=
  match v with
  | model.VString s => String.eqb s EmptyString
  | _ => false
  end.

(** [ValidateProviderConfig] validates provider-specific configuration: the
    loop over [requiredFields]. *)
Fixpoint ValidateProviderConfig (config : gmap string model.value)
    (requiredFields : list string) : option error :=
  match requiredFields with
  | [] => None
  | field :: rest =>
      match config !! field with
      | None => Some (errorString ("missing required field: " +:+ field))
      | Some value =>
          if isEmptyString value
          then Some (errorString ("field " +:+ field +:+ " cannot be empty"))
          else ValidateProviderConfig config rest
      end
  end.

(** A required field that is present and is not an empty string. *)
Definition fieldOk (config : gmap string model.value) (field : string) : Prop :=
  exists v, config !! field = Some v /\ isEmptyString v = false.

End configfile.

(** ** adapters/esms: the code of a voice call *)

Module esms.

(** [allDigits] checks if a string consists of all digits. *)
Definition allDigits (s : string) : bool :=
  model.allDigits s && (0 <? String.length s)%nat.

(** One loop [for i := 0; i <= len(message)-length; i++] of
    [extractOTPFromMessage], entered at [i] with [count] iterations left to
    run: the first window [message[i : i+length]] that is all digits. *)
Fixpoint firstWindow (length : nat) (message : string) (i : nat) (count : nat)
    : option string :=
  match count with
  | O => None
  | S count' =>
      if allDigits (substring i length message)
      then Some (substring i length message)
      else firstWindow length message (S i) count'
  end.

(** The number of values of [i] with [i <= len(message) - length]. *)
Definition iterations (length : nat) (message : string) : nat :=
  (S (String.length message) - length)%nat.

(** The loop [for length := 4; length <= 8; length++] over the lengths it
    does not skip. *)
Fixpoint otherLengths (lengths : list nat) (message : string) : option string :=
  match lengths with
  | [] => None
  | length :: rest =>
      match firstWindow length message 0 (iterations length message) with
      | Some otp => Some otp
      | None => otherLengths rest message
      end
  end.

(** [extractOTPFromMessage] attempts to extract an OTP code from a message. *)
Definition extractOTPFromMessage (message : string) : string :=
  match firstWindow 6 message 0 (iterations 6 message) with
  | Some otp => otp
  | None =>
      match otherLengths [4; 5; 7; 8]%nat message with
      | Some otp => otp
      | None => message
      end
  end.

End esms.

(** ** Fixtures: the inputs of the repository's tests and examples *)

Module fixtures.
Import gostrings goerrors.

(** The operation of the retry tests: it counts its calls and always fails
    with a server error. *)
Definition always500 (calls : nat) : option error * nat :=
  (Some (HTTPError 500 "Server error"), S calls).

(** The operation of the test of a non-retriable error. *)
Definition always400 (calls : nat) : option error * nat :=
  (Some (HTTPError 400 "Bad request"), S calls).

(** The operation of the specification's example: it fails twice with a
    retriable error, then succeeds. *)
Definition failsTwice (calls : nat) : option error * nat :=
  (if (calls <? 2)%nat then Some (HTTPError 500 "Server error") else None, S calls).

(** A policy with one attempt only. *)
Definition singleAttempt : retry.Config := {|
  retry.MaxAttempts := 1;
  retry.InitialDelay := 500 * retry.Millisecond;
  retry.MaxDelay := 30 * retry.Second;
  retry.Multiplier := 2.0%float;
  retry.RetriableErrors := None
|}.

(** The policy of the specification's example scenario. *)
Definition policy100ms : retry.Config := {|
  retry.MaxAttempts := 3;
  retry.InitialDelay := 100 * retry.Millisecond;
  retry.MaxDelay := 30 * retry.Second;
  retry.Multiplier := 2.0%float;
  retry.RetriableErrors := None
|}.

(** The message of the rendering tests. *)
Definition testMessage : model.Message :=
  {| model.From := "Sender"; model.To := "+1234567890"; model.By := "TestApp" |}.

(** The data bag of the test named Message fields override data map, at
    the location [1] of a heap that holds nothing else. *)
Definition overridingBag : gmap string model.value :=
  <["from" := model.VString "OtherSender"]>
    (<["to" := model.VString "OtherRecipient"]>
       (<["by" := model.VString "OtherApp"]> ∅)).

Definition overridingHeap : model.heap := <[1%positive := overridingBag]> ∅.

(** The data bag of the specification's example scenario. *)
Definition johnBag : gmap string model.value :=
  <["name" := model.VString "John"]> (<["code" := model.VString "123456"]> ∅).

Definition johnHeap : model.heap := <[1%positive := johnBag]> ∅.

(** A context whose deadline passes during the first wait. *)
Definition expiresInFirstWait : retry.Context :=
  fun k => match k with O => Some retry.deadlineExceeded | _ => None end.

(** The configuration of the registry tests. *)
Definition testConfig : config.Config := {|
  config.DefaultProvider := "provider1";
  config.HTTPTimeout := 10 * retry.Second;
  config.RetryAttempts := 3;
  config.RetryDelay := 500 * retry.Millisecond;
  config.SMSTemplate := "Your message is {message}";
  config.VoiceTemplate := "Your message is {message}"
|}.

(** Backends over a world that counts the calls made to them.  A backend
    named [name] that refuses every message with the error [e]. *)
Definition refusing (name : string) (e : error) : sms.Provider nat := {|
  sms.Name := name;
  sms.provider_SendSMS := fun _ w => ((model.zeroSMSResponse, Some e), S w);
  sms.provider_SendVoiceCall := fun _ w => ((model.zeroVoiceResponse, Some e), S w)
|}.

Definition provider1 : sms.Provider nat :=
  refusing "provider1" (errorString "account suspended").
Definition provider2 : sms.Provider nat :=
  refusing "provider2" (HTTPError 401 "Unauthorized").
(** A second backend that also calls itself provider1. *)
Definition provider1' : sms.Provider nat :=
  refusing "provider1" (HTTPError 400 "Bad request").

(** The registry of the tests after its first two registrations. *)
Definition twoProviders : sms.SMSModule nat :=
  sms.run (sms.NewModule testConfig) [sms.OpAdd provider1; sms.OpAdd provider2].

Definition testSMSRequest : model.SendSMSRequest := {|
  model.sms_Message := testMessage;
  model.sms_Template := EmptyString;
  model.sms_Data := None;
  model.sms_Options := None
|}.


(** A backend that accepts every message and leaves the provider field of
    its response empty. *)
Definition acceptedSMS : model.SendSMSResponse := {|
  model.MessageID := "msg_123"; model.sms_Status := "sent";
  model.sms_Provider := EmptyString; model.SentAt := 0; model.sms_Cost := 0%float;
  model.sms_Currency := EmptyString; model.sms_ProviderResponse := None
|}.

Definition accepting (name : string) : sms.Provider nat := {|
  sms.Name := name;
  sms.provider_SendSMS := fun _ w => ((acceptedSMS, None), S w);
  sms.provider_SendVoiceCall := fun _ w => ((model.zeroVoiceResponse, None), S w)
|}.

(** A registry with one backend, under a given configuration. *)
Definition registryOf (c : config.Config) (p : sms.Provider nat) : sms.SMSModule nat :=
  sms.run (sms.NewModule c) [sms.OpAdd p].

(** A backend that answers every call with a server error. *)
Definition busy : sms.Provider nat := refusing "busy" (HTTPError 503 "busy").

(** The configuration of the tests with no attempt allowed, and the file
    it comes from. *)
Definition zeroAttempts : config.Config := {|
  config.DefaultProvider := "provider1";
  config.HTTPTimeout := 10 * retry.Second;
  config.RetryAttempts := 0;
  config.RetryDelay := 500 * retry.Millisecond;
  config.SMSTemplate := "Your message is {message}";
  config.VoiceTemplate := "Your message is {message}"
|}.

Definition provider1Section : gmap string model.value :=
  <["api_key" := model.VString "key1"]> (<["sender" := model.VString EmptyString]> ∅).

Definition zeroAttemptsFile : configfile.Config := {|
  configfile.base := zeroAttempts;
  configfile.Providers :=
    Some (<["provider1" := configfile.SectionMap provider1Section]> ∅)
|}.


End fixtures.


(** * Properties *)

(** ** The retry engine *)

Module RetryProps.
Import gostrings goerrors retry.

Section Loop.

Context {St : Type}.
Variable ctx : Context.
Variable config : Config.
Variable fn : St -> option error * St.

Local Abbreviation loop := (loop ctx config fn).
Local Abbreviation after := (after fn).
Local Abbreviation outcome := (outcome fn).

Lemma after_succ (n : nat) (s : St) :
  after (S n) s = snd (fn (after n s)).
Proof.
  revert s; induction n as [|n IH]; intros s; [reflexivity|].
  change (after (S (S n)) s) with (after (S n) (snd (fn s))).
  rewrite IH. reflexivity.
Qed.

Lemma last_cons (l : list Z) :
  forall x d : Z, List.last (x :: l) d = List.last l x.
Proof.
  induction l as [|y l IH]; intros x d; [reflexivity|].
  change (List.last (x :: y :: l) d) with (List.last (y :: l) d).
  rewrite !IH. reflexivity.
Qed.

(** One iteration that fails with a retriable error before the last
    attempt, the timer firing first. *)
Lemma loop_step_retry (r : nat) (a d : Z) (err : option error) (s : St) (t : Trace)
    (e : error) :
  fst (fn s) = Some e ->
  isRetriable config e = true ->
  a <> MaxAttempts config - 1 ->
  ctx (Z.to_nat a) = None ->
  loop (S r) a d err s t
  = loop r (a + 1) (nextDelay config d) (Some e) (snd (fn s))
      (waited (called t) (nextDelay config d)).
Proof.
  intros Hfn Hre Ha Hctx. cbn [retry.loop].
  destruct (fn s) as [o s'] eqn:Efn. cbn in Hfn. subst o. cbn [snd].
  rewrite Hre. cbn [negb]. rewrite orb_false_r.
  destruct (Z.eqb_spec a (MaxAttempts config - 1)) as [->|_]; [congruence|].
  rewrite Hctx. reflexivity.
Qed.

(** [n] such iterations in a row. *)
Lemma loop_steps_retry (n : nat) :
  forall (r : nat) (a d : Z) (err : option error) (s : St) (t : Trace),
    0 <= a ->
    a + Z.of_nat n <= MaxAttempts config - 1 ->
    (forall j, (j < n)%nat ->
       exists e, outcome j s = Some e /\ isRetriable config e = true) ->
    (forall j, (j < n)%nat -> ctx (Z.to_nat a + j)%nat = None) ->
    exists err',
      loop (n + r) a d err s t
      = loop r (a + Z.of_nat n) (List.last (delays config n d) d) err' (after n s)
          {| calls := calls t + n; waits := (waits t ++ delays config n d)%list |}.
Proof.
  induction n as [|n IH]; intros r a d err s t Ha Hn Hfail Hctx.
  - exists err. cbn [Nat.add retry.after delays List.last]. rewrite Z.add_0_r, Nat.add_0_r, app_nil_r.
    destruct t; reflexivity.
  - destruct (Hfail 0%nat ltac:(lia)) as (e & He & Hre).
    change (S n + r)%nat with (S (n + r)).
    rewrite (loop_step_retry _ _ _ _ _ _ e He Hre); [|lia|].
    2:{ specialize (Hctx 0%nat ltac:(lia)). rewrite Nat.add_0_r in Hctx. exact Hctx. }
    destruct (IH r (a + 1) (nextDelay config d) (Some e) (snd (fn s))
                (waited (called t) (nextDelay config d))) as (err' & Heq).
    + lia.
    + lia.
    + intros j Hj. apply (Hfail (S j)). lia.
    + intros j Hj. specialize (Hctx (S j) ltac:(lia)).
      replace (Z.to_nat (a + 1) + j)%nat with (Z.to_nat a + S j)%nat by lia. exact Hctx.
    + exists err'. change (retry.after fn 0 s) with s. rewrite Heq. f_equal.
      * lia.
      * cbn [delays]. rewrite last_cons. reflexivity.
      * cbn [calls waits called waited delays]. f_equal; [lia|].
        rewrite <- app_assoc. reflexivity.
Qed.

Lemma delays_snoc (n : nat) :
  forall d : Z,
    delays config (S n) d
    = (delays config n d ++ [nextDelay config (List.last (delays config n d) d)])%list.
Proof.
  induction n as [|n IH]; intros d; [reflexivity|].
  change (delays config (S (S n)) d)
    with (nextDelay config d :: delays config (S n) (nextDelay config d)).
  rewrite IH. cbn [delays app]. rewrite last_cons. reflexivity.
Qed.



(** An earlier iteration failing with a retriable error, the context being
    done before the timer fires. *)
Lemma loop_step_cancel (r : nat) (a d : Z) (err : option error) (s : St) (t : Trace)
    (e : error) (dn : Done) :
  fst (fn s) = Some e ->
  isRetriable config e = true ->
  a <> MaxAttempts config - 1 ->
  ctx (Z.to_nat a) = Some dn ->
  loop (S r) a d err s t
  = (Some (ctxErr dn), snd (fn s), waited (called t) (nextDelay config d)).
Proof.
  intros Hfn Hre Ha Hctx. cbn [retry.loop].
  destruct (fn s) as [o s'] eqn:Efn. cbn in Hfn. subst o.
  rewrite Hre. cbn [negb]. rewrite orb_false_r.
  destruct (Z.eqb_spec a (MaxAttempts config - 1)); [contradiction|].
  rewrite Hctx. reflexivity.
Qed.

(** [Do] with a valid attempt count enters the loop. *)
Lemma Do_enters_loop (s : St) :
  1 <= MaxAttempts config ->
  Do ctx config fn s
  = loop (Z.to_nat (MaxAttempts config)) 0 (InitialDelay config) None s noTrace.
Proof.
  intros H. unfold Do. destruct (Z.leb_spec (MaxAttempts config) 0); [lia|reflexivity].
Qed.




(** C6. If the context is done while [Do] waits after the failed attempt
    number [k] (the earlier waits having ended by their timers), the
    operation is not called again: it was called [k + 1] times, and [Do]
    returns [ctx.Err()], which is not the attempts-exhausted error. *)
Theorem Do_cancelled_during_wait (s : St) (k : nat) (d : Done) :
  Z.of_nat k < MaxAttempts config - 1 ->
  (forall j, (j <= k)%nat ->
     exists e, outcome j s = Some e /\ isRetriable config e = true) ->
  (forall j, (j < k)%nat -> ctx j = None) ->
  ctx k = Some d ->
  Do ctx config fn s
  = (Some (ctxErr d), after (S k) s,
     {| calls := S k; waits := delays config (S k) (InitialDelay config) |}) /\
  Is (ctxErr d) ErrMaxAttemptsReached = false.
Proof.
  intros Hk Hfail Hctx Hd. split; [|destruct d; reflexivity].
  rewrite Do_enters_loop by lia.
  replace (Z.to_nat (MaxAttempts config))
    with (k + S (Z.to_nat (MaxAttempts config) - k - 1))%nat by lia.
  destruct (loop_steps_retry k (S (Z.to_nat (MaxAttempts config) - k - 1)) 0
              (InitialDelay config) None s noTrace) as (err' & ->).
  - lia.
  - lia.
  - intros j Hj. apply Hfail. lia.
  - intros j Hj. apply Hctx. lia.
  - destruct (Hfail k (Nat.le_refl k)) as (e & He & Hre).
    rewrite (loop_step_cancel _ _ _ _ _ _ e d He Hre).
    + rewrite <- after_succ, delays_snoc.
      unfold waited, called. cbn [calls waits noTrace app Nat.add]. reflexivity.
    + lia.
    + replace (Z.to_nat (0 + Z.of_nat k)) with k by lia. exact Hd.
Qed.

End Loop.



(** C6 at the test of a context whose deadline passes in the first wait. *)
Lemma Do_cancelled_during_wait_witness :
  Do fixtures.expiresInFirstWait fixtures.policy100ms fixtures.always500 0%nat
  = (Some DeadlineExceeded, 1%nat,
     {| calls := 1; waits := [200 * Millisecond] |}) /\
  Is DeadlineExceeded ErrMaxAttemptsReached = false.
Proof.
  apply (Do_cancelled_during_wait fixtures.expiresInFirstWait fixtures.policy100ms
           fixtures.always500 0%nat 0%nat deadlineExceeded).
  - vm_compute. reflexivity.
  - intros j _. eexists. split; reflexivity.
  - intros j Hj. exfalso. inversion Hj.
  - reflexivity.
Defined.

(** C2 (the code departs from it). With the policy of the specification's
    example (initial delay 100ms, multiplier 2, ceiling 30s, three attempts)
    and an operation that always fails with a retriable error, [Do] waits
    200ms and then 400ms: the delay is multiplied before its first use, so
    the wait after the first failed attempt is not the initial delay.  The
    sequence the claim describes is 100ms, 200ms. *)
Theorem Do_first_wait_is_scaled :
  waits (snd (Do Background fixtures.policy100ms fixtures.always500 0%nat))
  = [200 * Millisecond; 400 * Millisecond] /\
  specified_waits fixtures.policy100ms 2 = [100 * Millisecond; 200 * Millisecond].
Proof. split; vm_compute; reflexivity. Qed.

(** The same at the example policy of examples/simple (multiplier 1.5,
    ceiling 2s, five attempts). *)
Example Do_waits_simple_example :
  waits (snd (Do Background
                {| MaxAttempts := 5; InitialDelay := 100 * Millisecond;
                   MaxDelay := 2 * Second; Multiplier := 1.5%float;
                   RetriableErrors := None |}
                fixtures.always500 0%nat))
  = [150000000; 225000000; 337500000; 506250000].
Proof. vm_compute. reflexivity. Qed.

(** The specification's scenario: two failures, then a success, make three
    calls and no error. *)
Example Do_succeeds_on_third_attempt :
  Do Background fixtures.policy100ms fixtures.failsTwice 0%nat
  = (None, 3%nat, {| calls := 3; waits := [200 * Millisecond; 400 * Millisecond] |}).
Proof. vm_compute. reflexivity. Qed.

(** With one attempt only, the first attempt is the final one: an error
    that is not retriable comes back with the attempts-exhausted marker. *)
Example Do_single_attempt_wraps :
  Do Background fixtures.singleAttempt fixtures.always400 0%nat
  = (Some (maxAttemptsError (HTTPError 400 "Bad request")), 1%nat,
     {| calls := 1; waits := [] |}).
Proof. vm_compute. reflexivity. Qed.

(** A non-positive attempt count is refused before any call. *)
Example Do_rejects_zero_attempts :
  Do Background
     {| MaxAttempts := 0; InitialDelay := 0; MaxDelay := 0; Multiplier := 2.0%float;
        RetriableErrors := None |}
     fixtures.always500 0%nat
  = (Some (errorString "retry attempts must be greater than 0"), 0%nat, noTrace).
Proof. reflexivity. Qed.

(** ** The default classifier *)

Ltac classify :=
  unfold IsRetriable;
  cbn [As_net_Error implements_net_Error Is sentinel_eqb As_url_Error
       As_HTTPError orb].

(** An error whose chain holds a [net.Error] is retried. *)
Lemma IsRetriable_net_Error (e : error) :
  As_net_Error e = true -> IsRetriable e = true.
Proof. intros H. unfold IsRetriable. rewrite H. reflexivity. Qed.

(** A cancellation or deadline error whose chain holds no [net.Error] is
    not retried. *)
Lemma IsRetriable_context_error (e : error) :
  As_net_Error e = false ->
  Is e DeadlineExceeded = true \/ Is e Canceled = true ->
  IsRetriable e = false.
Proof.
  intros Hnet H. unfold IsRetriable. rewrite Hnet.
  destruct H as [-> | ->]; [reflexivity|]. rewrite orb_true_r. reflexivity.
Qed.

Lemma IsRetriable_Canceled : IsRetriable Canceled = false.
Proof. reflexivity. Qed.

(** An [*HTTPError] with a status of at least 500, or 429, is retried,
    whatever its message. *)
Lemma IsRetriable_HTTPError (code : Z) (msg : string) :
  500 <= code \/ code = 429 -> IsRetriable (HTTPError code msg) = true.
Proof.
  intros H. classify.
  repeat match goal with
         | |- (if ?c then true else _) = true => destruct c; [reflexivity|]
         end.
  destruct H as [H | ->]; [|reflexivity].
  destruct (Z.leb_spec 500 code); [reflexivity|lia].
Qed.

(** The closed default: an error of none of the recognised kinds is not
    retried. *)
Lemma IsRetriable_closed_default (s : string) :
  Contains s "status code: 5" = false ->
  Contains s "500" = false -> Contains s "502" = false ->
  Contains s "503" = false -> Contains s "504" = false ->
  Contains (ToLower s) "timeout" = false ->
  Contains (ToLower s) "connection refused" = false ->
  Contains (ToLower s) "connection reset" = false ->
  Contains (ToLower s) "temporary" = false ->
  Contains (ToLower s) "too many requests" = false ->
  Contains (ToLower s) "service unavailable" = false ->
  IsRetriable (errorString s) = false.
Proof.
  intros H1 H2 H3 H4 H5 H6 H7 H8 H9 H10 H11. classify. cbn [Error].
  rewrite H1, H2, H3, H4, H5, H6, H7, H8, H9, H10, H11. reflexivity.
Qed.

(** C5 (the code departs from it). [IsRetriable] answers [true] for
    [context.DeadlineExceeded]: its type has the methods [Timeout] and
    [Temporary], so the test for a [net.Error], which comes first, accepts
    it before the test for context errors is reached.  In the same way a
    cancellation that arrives inside a network error ([net.OpError] or
    [url.Error] around [context.Canceled]) is retried.  And a timeout that
    is known by its text only is retried when the text has the word timeout
    in it, not when it says timed out, as the error of the repository's
    test does. *)
Theorem IsRetriable_DeadlineExceeded :
  IsRetriable DeadlineExceeded = true /\
  (Is (OpError "dial" Canceled) Canceled = true /\
   IsRetriable (OpError "dial" Canceled) = true) /\
  (Is (URLError "Post" "https://api.example.com/sms" Canceled) Canceled = true /\
   IsRetriable (URLError "Post" "https://api.example.com/sms" Canceled) = true) /\
  IsRetriable (errorString "operation timed out") = false.
Proof. repeat split; reflexivity. Qed.

(** The cases of the repository's classifier test, as the code decides
    them. *)
Example IsRetriable_test_table :
  IsRetriable_opt None = false /\
  IsRetriable (OpError "dial" (errorString "connection refused")) = true /\
  IsRetriable Canceled = false /\
  IsRetriable (HTTPError 500 "Internal server error") = true /\
  IsRetriable (HTTPError 429 "Too many requests") = true /\
  IsRetriable (HTTPError 400 "Bad request") = false /\
  IsRetriable (HTTPError 401 "Unauthorized") = false /\
  IsRetriable (errorString "connection refused") = true /\
  IsRetriable (errorString "some error") = false.
Proof. repeat split; reflexivity. Qed.

End RetryProps.

(** ** The template renderer *)

Module RenderProps.
Import gostrings goerrors model.

(** The scenarios of the specification and of the rendering tests. *)
Example Render_scenario_john :
  fst (Render fixtures.testMessage "Hello {name}! Your verification code is {code}."
         (Some 1%positive) fixtures.johnHeap)
  = "Hello John! Your verification code is 123456.".
Proof. vm_compute. reflexivity. Qed.

Example Render_nil_data :
  fst (Render fixtures.testMessage "From: {from}, To: {to}, By: {by}" None ∅)
  = "From: Sender, To: +1234567890, By: TestApp".
Proof. vm_compute. reflexivity. Qed.

Example Render_missing_variable :
  fst (Render fixtures.testMessage "Your message: {name}, Code: {otp}"
         (Some 1%positive) fixtures.johnHeap)
  = "Your message: John, Code: {otp}".
Proof. vm_compute. reflexivity. Qed.

Example Render_empty_template :
  Render fixtures.testMessage EmptyString (Some 1%positive) fixtures.johnHeap
  = (EmptyString, fixtures.johnHeap).
Proof. reflexivity. Qed.

Example Render_braces :
  fst (Render fixtures.testMessage "{{name} {} {a{name}b} {name}} {open"
         (Some 1%positive) fixtures.johnHeap)
  = "{John {} {aJohnb} John} {open".
Proof. vm_compute. reflexivity. Qed.

(** A key that is present keeps its entry. *)
Lemma union_singleton_present (d : gmap string value) (k : string) (v x : value) :
  d !! k = Some x -> d ∪ {[ k := v ]} = d.
Proof.
  intros H. apply map_eq. intros i. rewrite lookup_union.
  destruct (decide (i = k)) as [->|Hne].
  - rewrite H. destruct (({[ k := v ]} : gmap string value) !! k); reflexivity.
  - rewrite lookup_singleton_ne by congruence. destruct (d !! i); reflexivity.
Qed.

(** [setIfAbsent] on a map that exists: the entry is added below the
    entries the map already has. *)
Lemma setIfAbsent_union (h : heap) (l : loc) (d : gmap string value) (k : string)
    (v : value) :
  h !! l = Some d ->
  setIfAbsent h l k v = <[l := d ∪ {[ k := v ]}]> h.
Proof.
  intros H. unfold setIfAbsent, store, deref. rewrite H.
  change (default ∅ (Some d)) with d.
  destruct (d !! k) as [x|] eqn:E.
  - rewrite (union_singleton_present d k v x E). symmetry. apply insert_id. exact H.
  - rewrite (insert_union_singleton_r d k v E). reflexivity.
Qed.

(** What [Render] leaves in the heap and what it substitutes: the map of the
    caller with the message's entries added below it. *)
Lemma Render_effective_bag (m : Message) (template : string) (l : loc)
    (d : gmap string value) (h : heap) :
  template <> EmptyString ->
  h !! l = Some d ->
  Render m template (Some l) h
  = (ReplaceAllStringFunc (replacePlaceholder (d ∪ identityBag m)) template None,
     <[l := d ∪ identityBag m]> h).
Proof.
  intros Ht H. unfold Render.
  destruct (String.eqb_spec template EmptyString) as [E|_]; [contradiction|].
  set (d1 := d ∪ {[ "from" := VString (From m) ]}).
  set (d2 := d1 ∪ {[ "to" := VString (To m) ]}).
  rewrite (setIfAbsent_union h l d "from" (VString (From m)) H). fold d1.
  rewrite (setIfAbsent_union (<[l := d1]> h) l d1 "to" (VString (To m)))
    by apply lookup_insert_eq.
  fold d2.
  rewrite (setIfAbsent_union (<[l := d2]> (<[l := d1]> h)) l d2 "by" (VString (By m)))
    by apply lookup_insert_eq.
  subst d2 d1.
  rewrite !insert_insert_eq.
  unfold deref. rewrite lookup_insert_eq.
  match goal with |- context [default ∅ (Some ?x)] => change (default ∅ (Some x)) with x end.
  unfold identityBag. rewrite !(assoc_L (∪)). reflexivity.
Qed.

(** A template that is one placeholder. *)
Lemma ReplaceAllStringFunc_from (repl : string -> string) :
  ReplaceAllStringFunc repl "{from}" None = repl "{from}" +:+ EmptyString.
Proof. reflexivity. Qed.

Lemma append_empty_r (s : string) : s +:+ EmptyString = s.
Proof.
  induction s as [|c s IH]; [reflexivity|].
  change (String c s +:+ EmptyString) with (String c (s +:+ EmptyString)).
  rewrite IH. reflexivity.
Qed.

(** A reserved key the caller has set reaches the template with the
    caller's value. *)
Lemma Render_reserved_key_of_caller (m : Message) (l : loc) (d : gmap string value)
    (h : heap) (v : value) :
  h !! l = Some d ->
  d !! "from" = Some v ->
  fst (Render m "{from}" (Some l) h) = Sprintf_v v.
Proof.
  intros H Hv.
  rewrite (Render_effective_bag m "{from}" l d h) by (discriminate || exact H).
  cbn [fst]. rewrite ReplaceAllStringFunc_from, append_empty_r.
  unfold replacePlaceholder.
  change (substring 1 (String.length "{from}" - 2) "{from}") with "from".
  rewrite lookup_union, Hv.
  destruct (identityBag m !! "from"); reflexivity.
Qed.

(** A reserved key the caller has not set is the message's. *)
Lemma Render_reserved_key_of_message (m : Message) (l : loc) (d : gmap string value)
    (h : heap) :
  h !! l = Some d ->
  d !! "from" = None ->
  fst (Render m "{from}" (Some l) h) = From m.
Proof.
  intros H Hv.
  rewrite (Render_effective_bag m "{from}" l d h) by (discriminate || exact H).
  cbn [fst]. rewrite ReplaceAllStringFunc_from, append_empty_r.
  unfold replacePlaceholder.
  change (substring 1 (String.length "{from}" - 2) "{from}") with "from".
  rewrite lookup_union, Hv. reflexivity.
Qed.

(** C1 (the code departs from it). On the input of the repository's test
    of reserved keys, a data bag that binds [from], [to] and [by], the
    placeholders are replaced by the data bag's values, not by the values
    of the message: [Render] adds its three entries only where the key is
    absent. *)
Theorem Render_data_bag_overrides_identity :
  fst (Render fixtures.testMessage "From: {from}, To: {to}, By: {by}"
         (Some 1%positive) fixtures.overridingHeap)
  = "From: OtherSender, To: OtherRecipient, By: OtherApp".
Proof. vm_compute. reflexivity. Qed.

(** C10. For a non-empty template and a data bag that is not nil, [Render]
    changes the caller's map in place: afterwards it binds each of [from],
    [to] and [by] that was absent to the message's value, every entry it had
    is unchanged, no other key is added, and no other map is touched. *)
Theorem Render_mutates_data_bag (m : Message) (template : string) (l : loc)
    (d : gmap string value) (h : heap) :
  template <> EmptyString ->
  h !! l = Some d ->
  exists d',
    snd (Render m template (Some l) h) !! l = Some d' /\
    (forall k v, d !! k = Some v -> d' !! k = Some v) /\
    (d !! "from" = None -> d' !! "from" = Some (VString (From m))) /\
    (d !! "to" = None -> d' !! "to" = Some (VString (To m))) /\
    (d !! "by" = None -> d' !! "by" = Some (VString (By m))) /\
    (forall k, k <> "from" -> k <> "to" -> k <> "by" -> d' !! k = d !! k) /\
    (forall l', l' <> l -> snd (Render m template (Some l) h) !! l' = h !! l').
Proof.
  intros Ht H. rewrite (Render_effective_bag m template l d h Ht H). cbn [snd].
  exists (d ∪ identityBag m). split; [apply lookup_insert_eq|].
  split; [intros k v Hk; rewrite lookup_union, Hk; destruct (identityBag m !! k); reflexivity|].
  unfold identityBag.
  repeat split.
  - intros Hn. rewrite lookup_union, Hn. reflexivity.
  - intros Hn. rewrite lookup_union, Hn. reflexivity.
  - intros Hn. rewrite lookup_union, Hn. reflexivity.
  - intros k H1 H2 H3. rewrite !lookup_union.
    rewrite !lookup_singleton_ne by congruence.
    destruct (d !! k); reflexivity.
  - intros l' Hl. apply lookup_insert_ne. congruence.
Qed.

(** C10 at the data bag of the specification's example. *)
Lemma Render_mutates_data_bag_witness :
  exists d',
    snd (Render fixtures.testMessage "Sent by {by}" (Some 1%positive) fixtures.johnHeap)
      !! 1%positive = Some d' /\
    (forall k v, fixtures.johnBag !! k = Some v -> d' !! k = Some v) /\
    (fixtures.johnBag !! "from" = None ->
     d' !! "from" = Some (VString (From fixtures.testMessage))) /\
    (fixtures.johnBag !! "to" = None ->
     d' !! "to" = Some (VString (To fixtures.testMessage))) /\
    (fixtures.johnBag !! "by" = None ->
     d' !! "by" = Some (VString (By fixtures.testMessage))) /\
    (forall k, k <> "from" -> k <> "to" -> k <> "by" -> d' !! k = fixtures.johnBag !! k) /\
    (forall l', l' <> 1%positive ->
       snd (Render fixtures.testMessage "Sent by {by}" (Some 1%positive) fixtures.johnHeap)
         !! l' = fixtures.johnHeap !! l').
Proof.
  apply (Render_mutates_data_bag fixtures.testMessage "Sent by {by}" 1%positive
           fixtures.johnBag fixtures.johnHeap).
  - discriminate.
  - reflexivity.
Defined.

End RenderProps.

(** ** The dispatch registry *)

Module RegistryProps.
Import gostrings goerrors model sms.

Section Registry.

Context {W : Type}.
Implicit Types (m : SMSModule W) (p provider : Provider W).

(** A failed registration or switch returns the module it was given. *)
Lemma AddProvider_taken m provider (first : Provider W) :
  providers m !! Name provider = Some first ->
  exists err, AddProvider m provider = (Some err, m).
Proof. intros H. unfold AddProvider. rewrite H. eexists. reflexivity. Qed.

Lemma SwitchProvider_unknown m (name : string) :
  providers m !! name = None ->
  exists err, SwitchProvider m name = (Some err, m).
Proof. intros H. unfold SwitchProvider. rewrite H. eexists. reflexivity. Qed.

Lemma AddProvider_keyed m provider :
  keyed_by_name m -> keyed_by_name (snd (AddProvider m provider)).
Proof.
  intros Hk name p. unfold AddProvider.
  destruct (providers m !! Name provider) eqn:E; [apply Hk|].
  cbv zeta. cbn [activeProvider cfg providers].
  destruct (_ || _); cbn [snd providers];
    (destruct (decide (Name provider = name)) as [<-|Hne];
     [rewrite lookup_insert_eq; congruence
     |rewrite lookup_insert_ne by exact Hne; apply Hk]).
Qed.

Lemma SwitchProvider_keyed m (name : string) :
  keyed_by_name m -> keyed_by_name (snd (SwitchProvider m name)).
Proof.
  intros Hk. unfold SwitchProvider.
  destruct (providers m !! name); cbn [snd]; exact Hk.
Qed.

Lemma AddProvider_active_registered m provider :
  active_registered m -> active_registered (snd (AddProvider m provider)).
Proof.
  intros Hinv p. unfold AddProvider.
  destruct (providers m !! Name provider) eqn:E; [apply Hinv|].
  cbv zeta. cbn [activeProvider cfg providers].
  destruct (activeProvider m) as [a|] eqn:Ea;
    destruct (String.eqb (config.DefaultProvider (cfg m)) (Name provider));
    cbn [orb snd providers activeProvider]; intros Hp; inversion Hp; subst p;
    try apply lookup_insert_eq.
  assert (Hreg : providers m !! Name a = Some a) by (apply Hinv; exact Ea).
  rewrite lookup_insert_ne; [exact Hreg|].
  intros Heq. rewrite <- Heq in Hreg. congruence.
Qed.

Lemma SwitchProvider_active_registered m (name : string) :
  keyed_by_name m ->
  active_registered m -> active_registered (snd (SwitchProvider m name)).
Proof.
  intros Hk Hinv p. unfold SwitchProvider.
  destruct (providers m !! name) as [q|] eqn:E; cbn [snd]; [|apply Hinv].
  cbn [activeProvider providers]. intros Hp. inversion Hp; subst p.
  rewrite (Hk name q E). exact E.
Qed.

Lemma run_invariants (ops : list (Op W)) :
  forall m,
    keyed_by_name m -> active_registered m ->
    keyed_by_name (run m ops) /\ active_registered (run m ops).
Proof.
  induction ops as [|o ops IH]; intros m Hk Hinv; [split; assumption|].
  change (run m (o :: ops)) with (run (apply m o) ops).
  destruct o as [provider|name]; cbn [apply]; apply IH.
  - apply AddProvider_keyed, Hk.
  - apply AddProvider_active_registered, Hinv.
  - apply SwitchProvider_keyed, Hk.
  - apply SwitchProvider_active_registered; assumption.
Qed.

Lemma NewModule_invariants (c : config.Config) :
  keyed_by_name (NewModule (W := W) c) /\ active_registered (NewModule (W := W) c).
Proof.
  split.
  - intros name p H. cbn in H. rewrite lookup_empty in H. discriminate.
  - intros p H. discriminate.
Qed.

(** C8. Registering a backend whose name is already bound returns an error
    and leaves the module as it was: the name stays bound to the backend
    registered first and the active backend is the same. *)
Theorem AddProvider_duplicate_rejected m provider (first : Provider W) :
  providers m !! Name provider = Some first ->
  exists err,
    AddProvider m provider = (Some err, m) /\
    providers (snd (AddProvider m provider)) !! Name provider = Some first /\
    activeProvider (snd (AddProvider m provider)) = activeProvider m.
Proof.
  intros H. destruct (AddProvider_taken m provider first H) as (err & ->).
  exists err. repeat split. exact H.
Qed.

(** C9. After any sequence of registrations and switches on a new module,
    the active backend, if set, is bound in the registry under its name;
    and a switch to a name that is not registered fails and leaves the
    module, its active backend included, as it was. *)
Theorem active_backend_registered (c : config.Config) (ops : list (Op W)) :
  active_registered (run (NewModule c) ops) /\
  forall name,
    providers (run (NewModule c) ops) !! name = None ->
    exists err,
      SwitchProvider (run (NewModule c) ops) name
      = (Some err, run (NewModule c) ops).
Proof.
  split.
  - destruct (NewModule_invariants c) as [Hk Hinv].
    apply (run_invariants ops _ Hk Hinv).
  - intros name. apply SwitchProvider_unknown.
Qed.




End Registry.



(** C8 on the registry of the tests: a second backend that calls itself
    provider1 is refused. *)
Lemma AddProvider_duplicate_rejected_witness :
  exists err,
    AddProvider fixtures.twoProviders fixtures.provider1'
    = (Some err, fixtures.twoProviders) /\
    providers (snd (AddProvider fixtures.twoProviders fixtures.provider1'))
      !! "provider1" = Some fixtures.provider1 /\
    activeProvider (snd (AddProvider fixtures.twoProviders fixtures.provider1'))
    = activeProvider fixtures.twoProviders.
Proof.
  apply (AddProvider_duplicate_rejected fixtures.twoProviders fixtures.provider1'
           fixtures.provider1).
  reflexivity.
Defined.

(** C9 on the sequence of the tests: two registrations, a refused third, a
    switch to provider2, then a switch to a name that is not registered. *)
Lemma active_backend_registered_witness :
  let m := run (NewModule fixtures.testConfig)
             [OpAdd fixtures.provider1; OpAdd fixtures.provider2;
              OpAdd fixtures.provider1; OpSwitch "provider2"] in
  active_registered m /\
  exists err, SwitchProvider m "non-existent" = (Some err, m).
Proof.
  intros m.
  destruct (active_backend_registered fixtures.testConfig
              [OpAdd fixtures.provider1; OpAdd fixtures.provider2;
               OpAdd fixtures.provider1; OpSwitch "provider2"]) as [Hinv Hswitch].
  split; [exact Hinv|]. apply Hswitch. reflexivity.
Defined.

(** The tests' expectations on the active backend. *)
Example active_after_test_sequence :
  option_map Name (activeProvider (run (NewModule fixtures.testConfig)
             [OpAdd fixtures.provider1; OpAdd fixtures.provider2;
              OpAdd fixtures.provider1; OpSwitch "provider2";
              OpSwitch "non-existent"]))
  = Some "provider2".
Proof. reflexivity. Qed.

(** Registering the backend named as the default makes it active although
    another one was registered before it. *)
Example default_backend_becomes_active :
  option_map Name (activeProvider (run (NewModule fixtures.testConfig)
             [OpAdd fixtures.provider2; OpAdd fixtures.provider1]))
  = Some "provider1".
Proof. reflexivity. Qed.

End RegistryProps.

(** * Further properties of the code *)

(** ** retry/retry.go *)

Module RetryExtra.
Import gostrings goerrors retry.

Lemma nextDelay_le_MaxDelay (config : Config) (d : Z) :
  nextDelay config d <= MaxDelay config.
Proof.
  unfold nextDelay.
  destruct (Z.gtb_spec
              (Duration_of_float64 (PrimFloat.mul (float64_of_Z d) (Multiplier config)))
              (MaxDelay config)); lia.
Qed.

Section Loop.

Context {St : Type}.
Variable ctx : Context.
Variable config : Config.
Variable fn : St -> option error * St.

Lemma loop_post_stop (remaining : nat) (err : option error) (s : St) (t : Trace)
    (r : option error) :
  (r = None -> fst (fn s) = None) ->
  loop_post config fn (S remaining) err s t (r, snd (fn s), called t).
Proof.
  intros Hr. unfold loop_post. cbn [fst snd calls waits called].
  replace (S (calls t) - calls t)%nat with 1%nat by lia.
  split; [lia|]. split; [|split].
  - exists []. rewrite app_nil_r. split; [reflexivity|]. split; [constructor|cbn; lia].
  - reflexivity.
  - intros H. right. split; [lia|]. exact (Hr H).
Qed.

Lemma loop_post_holds (remaining : nat) :
  forall (attempt delay : Z) (err : option error) (s : St) (t : Trace),
    loop_post config fn remaining err s t
      (loop ctx config fn remaining attempt delay err s t).
Proof.
  induction remaining as [|r IH]; intros attempt delay err s t.
  - unfold loop_post. cbn [loop fst snd]. rewrite Nat.sub_diag.
    split; [lia|]. split; [|split].
    + exists []. rewrite app_nil_r. split; [reflexivity|]. split; [constructor|cbn; lia].
    + reflexivity.
    + intros H. left. split; [reflexivity|exact H].
  - cbn [loop].
    pose proof (loop_post_stop r err s t) as Hstop.
    destruct (fn s) as [o s1] eqn:Efn. cbn [fst snd] in Hstop.
    destruct o as [e|]; [|apply Hstop; reflexivity].
    destruct ((attempt =? MaxAttempts config - 1) || negb (isRetriable config e)).
    { destruct (attempt =? MaxAttempts config - 1); apply Hstop; discriminate. }
    destruct (ctx (Z.to_nat attempt)) as [d|].
    + unfold loop_post. cbn [fst snd calls waits called waited].
      replace (S (calls t) - calls t)%nat with 1%nat by lia.
      split; [lia|]. split; [|split].
      * exists [nextDelay config delay]. split; [reflexivity|].
        split; [|cbn; lia]. constructor; [apply nextDelay_le_MaxDelay|constructor].
      * cbn [after]. rewrite Efn. reflexivity.
      * discriminate.
    + specialize (IH (attempt + 1) (nextDelay config delay) (Some e) s1
                    (waited (called t) (nextDelay config delay))).
      unfold loop_post in *. cbn [calls waits called waited] in IH.
      destruct IH as (Hc & (ws & Hws & Hall & Hlen) & Hst & Hnone).
      set (res := loop ctx config fn r (attempt + 1) (nextDelay config delay) (Some e) s1
                    (waited (called t) (nextDelay config delay))) in *.
      split; [lia|]. split; [|split].
      * exists (nextDelay config delay :: ws). split.
        { rewrite Hws, <- app_assoc. reflexivity. }
        split; [constructor; [apply nextDelay_le_MaxDelay|exact Hall]|].
        cbn [length]. lia.
      * rewrite Hst.
        replace (calls (snd res) - calls t)%nat
          with (S (calls (snd res) - S (calls t)))%nat by lia.
        cbn [after]. rewrite Efn. reflexivity.
      * intros H. right. destruct (Hnone H) as [[_ Habs]|[Hlt Hout]]; [discriminate|].
        split; [lia|].
        replace (calls (snd res) - calls t - 1)%nat
          with (S (calls (snd res) - S (calls t) - 1))%nat by lia.
        unfold outcome in *. cbn [after]. rewrite Efn. exact Hout.
Qed.

(** The same at [Do]. *)
Lemma Do_post (s : St) :
  loop_post config fn (Z.to_nat (MaxAttempts config)) (Some Canceled) s noTrace
    (Do ctx config fn s).
Proof.
  unfold Do. destruct (Z.leb_spec (MaxAttempts config) 0) as [H|H].
  - replace (Z.to_nat (MaxAttempts config)) with O by lia.
    unfold loop_post. cbn [fst snd calls waits noTrace Nat.sub].
    split; [lia|]. split; [|split].
    + exists []. split; [reflexivity|]. split; [constructor|cbn; lia].
    + reflexivity.
    + discriminate.
  - pose proof (loop_post_holds (Z.to_nat (MaxAttempts config)) 0 (InitialDelay config)
                  None s noTrace) as Hp.
    unfold loop_post in *. destruct Hp as (Hc & Hw & Hst & Hnone).
    split; [exact Hc|]. split; [exact Hw|]. split; [exact Hst|].
    intros Hn. destruct (Hnone Hn) as [[H0 _]|Hr]; [lia|right; exact Hr].
Qed.

(** A call that succeeds ends the loop at once. *)
Lemma loop_step_success (r : nat) (a d : Z) (err : option error) (s : St) (t : Trace) :
  fst (fn s) = None ->
  loop ctx config fn (S r) a d err s t = (None, snd (fn s), called t).
Proof.
  intros H. cbn [loop]. destruct (fn s) as [o s1]. cbn in H. subst o. reflexivity.
Qed.

(** A first call that succeeds. *)
Lemma Do_first_success (s : St) :
  1 <= MaxAttempts config ->
  outcome fn 0 s = None ->
  Do ctx config fn s = (None, snd (fn s), {| calls := 1; waits := [] |}).
Proof.
  intros HN Hok. rewrite RetryProps.Do_enters_loop by exact HN.
  destruct (Z.to_nat (MaxAttempts config)) as [|r] eqn:Er; [lia|].
  rewrite loop_step_success by exact Hok. reflexivity.
Qed.


(** The context is done during the first wait. *)
Lemma Do_cancelled_first_wait (s : St) (e : error) (d : Done) :
  1 < MaxAttempts config ->
  outcome fn 0 s = Some e ->
  isRetriable config e = true ->
  ctx O = Some d ->
  Do ctx config fn s
  = (Some (ctxErr d), snd (fn s),
     {| calls := 1; waits := [nextDelay config (InitialDelay config)] |}).
Proof.
  intros HN He Hre Hd. rewrite RetryProps.Do_enters_loop by lia.
  destruct (Z.to_nat (MaxAttempts config)) as [|r] eqn:Er; [lia|].
  rewrite (RetryProps.loop_step_cancel ctx config fn _ _ _ _ _ _ e d He Hre);
    [reflexivity|lia|exact Hd].
Qed.

(** X1. Whatever the operation and the context do, [Do] calls the
    operation at most [MaxAttempts] times (never, when [MaxAttempts] is not
    positive), and it waits at most once per call. *)
Theorem Do_calls_bounded (s : St) :
  (calls (snd (Do ctx config fn s)) <= Z.to_nat (MaxAttempts config))%nat /\
  (length (waits (snd (Do ctx config fn s))) <= calls (snd (Do ctx config fn s)))%nat.
Proof.
  destruct (Do_post s) as (Hc & (ws & Hws & _ & Hlen) & _).
  cbn [calls waits noTrace app] in *. rewrite Hws. split; lia.
Qed.

(** X2. No wait of [Do] is longer than [MaxDelay]. *)
Theorem Do_waits_capped (s : St) :
  Forall (fun w => w <= MaxDelay config) (waits (snd (Do ctx config fn s))).
Proof.
  destruct (Do_post s) as (_ & (ws & Hws & Hall & _) & _).
  cbn [waits noTrace app] in Hws. rewrite Hws. exact Hall.
Qed.

(** X3. [Do] returns nil only when the operation has succeeded: at least
    one call was made, the last call returned nil, and the captured
    variables are those the calls have left. *)
Theorem Do_nil_means_success (s : St) :
  fst (fst (Do ctx config fn s)) = None ->
  (1 <= calls (snd (Do ctx config fn s)))%nat /\
  outcome fn (calls (snd (Do ctx config fn s)) - 1) s = None /\
  snd (fst (Do ctx config fn s)) = after fn (calls (snd (Do ctx config fn s))) s.
Proof.
  intros Hnil. destruct (Do_post s) as (_ & _ & Hst & Hnone).
  cbn [calls noTrace] in *. rewrite Nat.sub_0_r in *.
  destruct (Hnone Hnil) as [[_ Habs]|[Hlt Hout]]; [discriminate|].
  split; [lia|]. split; [exact Hout|exact Hst].
Qed.

(** X4. When the first [k] calls fail with retriable errors, the context
    is not done during the waits and call number [k] succeeds within the
    attempt budget, [Do] returns nil at once: [k + 1] calls, [k] waits, no
    wait after the success. *)
Theorem Do_succeeds_after_retries (s : St) (k : nat) :
  Z.of_nat k <= MaxAttempts config - 1 ->
  (forall j, (j < k)%nat ->
     exists e, outcome fn j s = Some e /\ isRetriable config e = true) ->
  (forall j, (j < k)%nat -> ctx j = None) ->
  outcome fn k s = None ->
  Do ctx config fn s
  = (None, after fn (S k) s,
     {| calls := S k; waits := delays config k (InitialDelay config) |}).
Proof.
  intros Hk Hfail Hctx Hok.
  rewrite RetryProps.Do_enters_loop by lia.
  replace (Z.to_nat (MaxAttempts config))
    with (k + S (Z.to_nat (MaxAttempts config) - k - 1))%nat by lia.
  destruct (RetryProps.loop_steps_retry ctx config fn k
              (S (Z.to_nat (MaxAttempts config) - k - 1)) 0
              (InitialDelay config) None s noTrace) as (err' & ->).
  - lia.
  - lia.
  - exact Hfail.
  - intros j Hj. apply Hctx. exact Hj.
  - rewrite loop_step_success by exact Hok.
    rewrite <- RetryProps.after_succ. reflexivity.
Qed.

End Loop.

(** X3 at the operation that fails twice and then succeeds. *)
Lemma Do_nil_means_success_witness :
  (1 <= calls (snd (Do Background fixtures.policy100ms fixtures.failsTwice 0%nat)))%nat /\
  outcome fixtures.failsTwice
    (calls (snd (Do Background fixtures.policy100ms fixtures.failsTwice 0%nat)) - 1)
    0%nat = None /\
  snd (fst (Do Background fixtures.policy100ms fixtures.failsTwice 0%nat))
  = after fixtures.failsTwice
      (calls (snd (Do Background fixtures.policy100ms fixtures.failsTwice 0%nat))) 0%nat.
Proof.
  apply (Do_nil_means_success Background fixtures.policy100ms fixtures.failsTwice 0%nat).
  vm_compute. reflexivity.
Defined.

(** X4 at the specification's scenario. *)
Lemma Do_succeeds_after_retries_witness :
  Do Background fixtures.policy100ms fixtures.failsTwice 0%nat
  = (None, 3%nat, {| calls := 3; waits := [200 * Millisecond; 400 * Millisecond] |}).
Proof.
  apply (Do_succeeds_after_retries Background fixtures.policy100ms fixtures.failsTwice
           0%nat 2%nat).
  - vm_compute. discriminate.
  - intros j Hj. exists (HTTPError 500 "Server error").
    destruct j as [|[|j]]; [split; reflexivity|split; reflexivity|lia].
  - intros j _. reflexivity.
  - reflexivity.
Defined.

(** X5. [DoWithOptions] calls the operation at most [attempts] times and
    never waits longer than 30 seconds, whatever the initial delay. *)
Theorem DoWithOptions_bounds {St : Type} (ctx : Context) (attempts initialDelay : Z)
    (fn : St -> option error * St) (s : St) :
  (calls (snd (DoWithOptions ctx attempts initialDelay fn s)) <= Z.to_nat attempts)%nat /\
  Forall (fun w => w <= 30 * Second)
    (waits (snd (DoWithOptions ctx attempts initialDelay fn s))).
Proof.
  unfold DoWithOptions.
  match goal with
  | |- context [Do ctx ?c fn s] =>
      destruct (Do_post ctx c fn s) as (Hc & (ws & Hws & Hall & _) & _)
  end.
  cbn [calls waits noTrace app MaxAttempts MaxDelay] in *.
  rewrite Hws. split; [lia|exact Hall].
Qed.

(** ** The classifiers *)

(** The status codes [IsRetriableHTTPCode] accepts. *)
Lemma IsRetriableHTTPCode_codes (code : Z) :
  IsRetriableHTTPCode code = true ->
  code = 500 \/ code = 502 \/ code = 503 \/ code = 504 \/ code = 429.
Proof.
  unfold IsRetriableHTTPCode, RetryableHTTPCodes. cbn [hasCode].
  repeat match goal with
         | |- context [?a =? ?b] => destruct (Z.eqb_spec a b); [lia|]
         end.
  discriminate.
Qed.

(** X6. The two classifiers agree on what [IsRetriableHTTPCode] accepts:
    an [HTTPError] made by [NewHTTPError] with such a status is retried by
    [IsRetriable], whatever its message. *)
Theorem IsRetriableHTTPCode_retried (code : Z) (message : string) :
  IsRetriableHTTPCode code = true ->
  IsRetriable (NewHTTPError code message) = true.
Proof.
  intros H. apply RetryProps.IsRetriable_HTTPError.
  destruct (IsRetriableHTTPCode_codes code H) as [->|[->|[->|[->| ->]]]]; lia.
Qed.

Lemma IsRetriableHTTPCode_retried_witness :
  IsRetriable (NewHTTPError 503 "Service Unavailable") = true.
Proof.
  apply (IsRetriableHTTPCode_retried 503 "Service Unavailable"). reflexivity.
Defined.

(** The converse fails: 501 is retried by [IsRetriable] and is not in the
    list of [RetryableHTTPCodes]. *)
Example IsRetriable_501 :
  IsRetriableHTTPCode 501 = false /\ IsRetriable (NewHTTPError 501 "Not Implemented") = true.
Proof. split; reflexivity. Qed.

(** X7. An error that wraps an [HTTPError] with a status of at least 500,
    or 429, is retried whatever the texts of the chain, provided the chain
    holds no [net.Error] and no context error. *)
Theorem IsRetriable_HTTPError_in_chain (e : error) (code : Z) :
  As_net_Error e = false ->
  Is e DeadlineExceeded = false ->
  Is e Canceled = false ->
  As_HTTPError e = Some code ->
  500 <= code \/ code = 429 ->
  IsRetriable e = true.
Proof.
  intros Hnet Hd Hc Hhttp Hcode. unfold IsRetriable.
  rewrite Hnet, Hd, Hc, Hhttp. cbn [orb].
  repeat match goal with
         | |- (if ?c then true else _) = true => destruct c; [reflexivity|]
         end.
  destruct Hcode as [H| ->]; [|reflexivity].
  destruct (Z.leb_spec 500 code); [reflexivity|lia].
Qed.

Lemma IsRetriable_HTTPError_in_chain_witness :
  IsRetriable (wrapError "speedsms: request rejected" (HTTPError 503 "busy")) = true.
Proof.
  apply (IsRetriable_HTTPError_in_chain _ 503); try reflexivity. left. lia.
Defined.

End RetryExtra.

(** ** sms.go: the registry *)

Module RegistryExtra.
Import gostrings goerrors model sms.

Section Registry.

Context {W : Type}.
Implicit Types (m : SMSModule W) (p provider : Provider W) (o : Op W).

Lemma apply_keeps_entry m o (name : string) p :
  providers m !! name = Some p -> providers (apply m o) !! name = Some p.
Proof.
  intros H. destruct o as [provider|n]; cbn [apply].
  - unfold AddProvider.
    destruct (providers m !! Name provider) eqn:E; [exact H|].
    cbv zeta. cbn [activeProvider cfg providers].
    destruct (_ || _); cbn [snd providers];
      (rewrite lookup_insert_ne; [exact H|intros Heq; congruence]).
  - unfold SwitchProvider. destruct (providers m !! n); exact H.
Qed.

Lemma apply_keeps_cfg m o : cfg (apply m o) = cfg m.
Proof.
  destruct o as [provider|n]; cbn [apply].
  - unfold AddProvider. destruct (providers m !! Name provider); [reflexivity|].
    cbv zeta. cbn [activeProvider cfg providers]. destruct (_ || _); reflexivity.
  - unfold SwitchProvider. destruct (providers m !! n); reflexivity.
Qed.

Lemma run_keeps_cfg (ops : list (Op W)) : forall m, cfg (run m ops) = cfg m.
Proof.
  induction ops as [|o ops IH]; intros m; [reflexivity|].
  change (run m (o :: ops)) with (run (apply m o) ops).
  rewrite IH. apply apply_keeps_cfg.
Qed.

(** X8. The registry only grows: a name that is bound stays bound to the
    same backend through every later registration and switch. *)
Theorem registry_only_grows (ops : list (Op W)) :
  forall m (name : string) p,
    providers m !! name = Some p ->
    providers (run m ops) !! name = Some p.
Proof.
  induction ops as [|o ops IH]; intros m name p H; [exact H|].
  change (run m (o :: ops)) with (run (apply m o) ops).
  apply IH, apply_keeps_entry, H.
Qed.

(** X9. Registration and lookup: registering a backend under a free name
    succeeds, [GetProvider] then returns that backend for its name, and
    the answers for all other names are as before. *)
Theorem GetProvider_after_AddProvider m provider :
  providers m !! Name provider = None ->
  fst (AddProvider m provider) = None /\
  GetProvider (snd (AddProvider m provider)) (Name provider) = (Some provider, None) /\
  forall name, name <> Name provider ->
    GetProvider (snd (AddProvider m provider)) name = GetProvider m name.
Proof.
  intros H. unfold AddProvider. rewrite H. cbv zeta.
  cbn [activeProvider cfg providers].
  destruct (_ || _); cbn [fst snd]; unfold GetProvider; cbn [providers];
    (split; [reflexivity|]; split;
     [rewrite lookup_insert_eq; reflexivity
     |intros name Hne; rewrite lookup_insert_ne by congruence; reflexivity]).
Qed.

Lemma apply_active_iff_registered m o :
  active_iff_registered m -> active_iff_registered (apply m o).
Proof.
  unfold active_iff_registered. intros Hinv. destruct o as [provider|n]; cbn [apply].
  - unfold AddProvider.
    destruct (providers m !! Name provider) eqn:E; [exact Hinv|].
    cbv zeta. cbn [activeProvider cfg providers].
    destruct (activeProvider m) as [a|] eqn:Ea;
      destruct (String.eqb _ _); cbn [orb snd activeProvider providers];
      (split; [discriminate|intros Habs; exfalso;
       exact (insert_non_empty (providers m) (Name provider) provider Habs)]).
  - unfold SwitchProvider.
    destruct (providers m !! n) as [q|] eqn:E; [|exact Hinv].
    cbn [snd activeProvider providers].
    split; [discriminate|]. intros Habs. rewrite Habs, lookup_empty in E. discriminate.
Qed.

(** X10. After any sequence of registrations and switches on a new module,
    [GetActiveProvider] fails exactly when no backend is registered. *)
Theorem GetActiveProvider_fails_iff_empty (c : config.Config) (ops : list (Op W)) :
  fst (GetActiveProvider (run (NewModule c) ops)) = None
  <-> providers (run (NewModule c) ops) = ∅.
Proof.
  assert (Hinv : active_iff_registered (run (NewModule (W := W) c) ops)).
  { generalize (NewModule (W := W) c),
               (conj (fun _ => eq_refl) (fun _ => eq_refl)
                : active_iff_registered (NewModule (W := W) c)).
    induction ops as [|o ops IH]; intros m Hm; [exact Hm|].
    change (run m (o :: ops)) with (run (apply m o) ops).
    apply IH, apply_active_iff_registered, Hm. }
  unfold active_iff_registered in Hinv. unfold GetActiveProvider.
  destruct (activeProvider (run (NewModule c) ops)); cbn [fst]; split.
  - discriminate.
  - intros H. apply Hinv in H. discriminate.
  - intros _. apply Hinv. reflexivity.
  - reflexivity.
Qed.

Lemma AddProvider_default_is_active m provider :
  default_is_active m -> default_is_active (snd (AddProvider m provider)).
Proof.
  unfold default_is_active. intros Hinv p. unfold AddProvider.
  destruct (providers m !! Name provider) eqn:E; [apply Hinv|].
  cbv zeta. cbn [activeProvider cfg providers].
  destruct (String.eqb_spec (config.DefaultProvider (cfg m)) (Name provider)) as [Hd|Hd].
  - rewrite orb_true_r. cbn [snd cfg providers activeProvider].
    rewrite Hd, lookup_insert_eq. intros Hp. exact Hp.
  - rewrite orb_false_r.
    destruct (activeProvider m) as [a|] eqn:Ea; cbn [snd cfg providers activeProvider];
      rewrite lookup_insert_ne by congruence; intros Hp.
    + apply Hinv, Hp.
    + apply Hinv in Hp. discriminate.
Qed.

(** X11. As long as no switch is made, the backend registered under the
    configured default name is the active one, wherever it stands in the
    order of the registrations. *)
Theorem default_backend_is_active (c : config.Config) (ops : list (Op W)) p :
  Forall (fun o => exists provider, o = OpAdd provider) ops ->
  providers (run (NewModule c) ops) !! config.DefaultProvider c = Some p ->
  activeProvider (run (NewModule c) ops) = Some p.
Proof.
  intros Hadds Hp.
  assert (Hinv : default_is_active (run (NewModule (W := W) c) ops)).
  { assert (H0 : default_is_active (NewModule (W := W) c)).
    { intros q Hq. cbn in Hq. rewrite lookup_empty in Hq. discriminate. }
    clear Hp. revert H0. generalize (NewModule (W := W) c).
    induction ops as [|o ops IH]; intros m Hm; [exact Hm|].
    inversion Hadds as [|o' ops' [provider Ho] Hrest]; subst.
    change (run m (OpAdd provider :: ops)) with (run (snd (AddProvider m provider)) ops).
    apply IH; [exact Hrest|]. apply AddProvider_default_is_active, Hm. }
  apply Hinv. rewrite run_keeps_cfg. exact Hp.
Qed.

End Registry.

(** X8 on the registry of the tests. *)
Lemma registry_only_grows_witness :
  providers (run fixtures.twoProviders [OpAdd fixtures.provider1'; OpSwitch "provider2"])
    !! "provider1" = Some fixtures.provider1.
Proof.
  apply (registry_only_grows [OpAdd fixtures.provider1'; OpSwitch "provider2"]
           fixtures.twoProviders "provider1" fixtures.provider1).
  reflexivity.
Defined.

(** X9 at the first registration of the tests. *)
Lemma GetProvider_after_AddProvider_witness :
  fst (AddProvider (NewModule fixtures.testConfig) fixtures.provider2) = None /\
  GetProvider (snd (AddProvider (NewModule fixtures.testConfig) fixtures.provider2))
    "provider2" = (Some fixtures.provider2, None) /\
  forall name, name <> "provider2" ->
    GetProvider (snd (AddProvider (NewModule fixtures.testConfig) fixtures.provider2)) name
    = GetProvider (NewModule fixtures.testConfig) name.
Proof.
  apply (GetProvider_after_AddProvider (NewModule fixtures.testConfig) fixtures.provider2).
  reflexivity.
Defined.

(** X11 on the default backend registered second. *)
Lemma default_backend_is_active_witness :
  activeProvider (run (NewModule fixtures.testConfig)
                    [OpAdd fixtures.provider2; OpAdd fixtures.provider1])
  = Some fixtures.provider1.
Proof.
  apply (default_backend_is_active fixtures.testConfig
           [OpAdd fixtures.provider2; OpAdd fixtures.provider1] fixtures.provider1).
  - repeat constructor; eexists; reflexivity.
  - reflexivity.
Defined.

End RegistryExtra.

(** ** sms.go: sending *)

Module SendExtra.
Import gostrings goerrors model sms.


Section Send.

Context {W : Type}.
Implicit Types (m : SMSModule W) (active : Provider W).

Lemma SendSMS_unfold m (ctx : retry.Context) active (req : SendSMSRequest) (w : W) :
  activeProvider m = Some active ->
  SendSMSRequest_Validate req = None ->
  SendSMS m ctx req w
  = let '(err, (response, w), t) :=
      retry.Do ctx (retryConfig m) (smsCall active req) (zeroSMSResponse, w) in
    match err with
    | Some err =>
        ((zeroSMSResponse, Some (sendError "SMS" (config.RetryAttempts (cfg m)) err)), w, t)
    | None =>
        ((if String.eqb (sms_Provider response) EmptyString then
            {| MessageID := MessageID response;
               sms_Status := sms_Status response;
               sms_Provider := Name active;
               SentAt := SentAt response;
               sms_Cost := sms_Cost response;
               sms_Currency := sms_Currency response;
               sms_ProviderResponse := sms_ProviderResponse response |}
          else response, None), w, t)
    end.
Proof. intros Ha Hv. unfold SendSMS. rewrite Ha, Hv. reflexivity. Qed.


(** X13. When the first call of the active backend succeeds, [SendSMS]
    makes that one call and no wait, and returns the backend's response
    with its provider field filled in by the active backend's name if the
    backend left it empty; every other field is the backend's. *)
Theorem SendSMS_first_success m (ctx : retry.Context) active (req : SendSMSRequest)
    (w w' : W) (resp : SendSMSResponse) :
  activeProvider m = Some active ->
  SendSMSRequest_Validate req = None ->
  1 <= config.RetryAttempts (cfg m) ->
  provider_SendSMS active req w = ((resp, None), w') ->
  exists r,
    SendSMS m ctx req w = ((r, None), w', {| retry.calls := 1; retry.waits := [] |}) /\
    sms_Provider r
    = (if String.eqb (sms_Provider resp) EmptyString then Name active
       else sms_Provider resp) /\
    MessageID r = MessageID resp /\ sms_Status r = sms_Status resp /\
    SentAt r = SentAt resp /\ sms_Cost r = sms_Cost resp /\
    sms_Currency r = sms_Currency resp /\
    sms_ProviderResponse r = sms_ProviderResponse resp.
Proof.
  intros Ha Hv Hn Hcall. rewrite (SendSMS_unfold m ctx active req w Ha Hv).
  rewrite (RetryExtra.Do_first_success ctx (retryConfig m) (smsCall active req)
             (zeroSMSResponse, w)).
  - cbn [smsCall snd]. rewrite Hcall.
    destruct (String.eqb (sms_Provider resp) EmptyString) eqn:E;
      eexists; (split; [reflexivity|]); cbn; rewrite ?E; repeat split; reflexivity.
  - exact Hn.
  - unfold retry.outcome. cbn [retry.after smsCall]. rewrite Hcall. reflexivity.
Qed.


(** X15. Whatever the backend and the context do, one [SendSMS] calls the
    backend at most [RetryAttempts] times and never waits longer than 30
    seconds between two calls. *)
Theorem SendSMS_calls_bounded m (ctx : retry.Context) (req : SendSMSRequest) (w : W) :
  (retry.calls (snd (SendSMS m ctx req w))
   <= Z.to_nat (config.RetryAttempts (cfg m)))%nat /\
  Forall (fun d => d <= 30 * retry.Second) (retry.waits (snd (SendSMS m ctx req w))).
Proof.
  destruct (activeProvider m) as [active|] eqn:Ha;
    [|unfold SendSMS; rewrite Ha; cbn; split; [lia|constructor]].
  destruct (SendSMSRequest_Validate req) as [err|] eqn:Hv;
    [unfold SendSMS; rewrite Ha, Hv; cbn; split; [lia|constructor]|].
  rewrite (SendSMS_unfold m ctx active req w Ha Hv).
  pose proof (RetryExtra.Do_post ctx (retryConfig m) (smsCall active req)
                (zeroSMSResponse, w)) as (Hc & (ws & Hws & Hall & _) & _).
  destruct (retry.Do ctx (retryConfig m) (smsCall active req) (zeroSMSResponse, w))
    as [[err [response w1]] t].
  cbn [snd fst retry.calls retry.waits retry.noTrace app retry.MaxAttempts
       retry.MaxDelay retryConfig] in *.
  assert (Ht : (retry.calls t <= Z.to_nat (config.RetryAttempts (cfg m)))%nat
               /\ Forall (fun d => d <= 30 * retry.Second) (retry.waits t)).
  { split; [lia|]. rewrite Hws. exact Hall. }
  destruct err; exact Ht.
Qed.


(** X17. When the context is done during the first wait, [SendSMS] has
    called the backend once and the caller can tell cancellation from
    exhausted attempts: the module's error wraps [ctx.Err()] and not the
    attempts-exhausted marker. *)
Theorem SendSMS_cancelled_is_visible m (ctx : retry.Context) active
    (req : SendSMSRequest) (w w' : W) (resp : SendSMSResponse) (e : error)
    (d : retry.Done) :
  activeProvider m = Some active ->
  SendSMSRequest_Validate req = None ->
  1 < config.RetryAttempts (cfg m) ->
  provider_SendSMS active req w = ((resp, Some e), w') ->
  retry.IsRetriable e = true ->
  ctx O = Some d ->
  SendSMS m ctx req w
  = ((zeroSMSResponse,
      Some (sendError "SMS" (config.RetryAttempts (cfg m)) (retry.ctxErr d))),
     w', {| retry.calls := 1;
            retry.waits := [retry.nextDelay (retryConfig m) (config.RetryDelay (cfg m))] |})
  /\ Is (sendError "SMS" (config.RetryAttempts (cfg m)) (retry.ctxErr d))
        (retry.ctxErr d) = true
  /\ Is (sendError "SMS" (config.RetryAttempts (cfg m)) (retry.ctxErr d))
        ErrMaxAttemptsReached = false.
Proof.
  intros Ha Hv Hn Hcall Hre Hd. rewrite (SendSMS_unfold m ctx active req w Ha Hv).
  rewrite (RetryExtra.Do_cancelled_first_wait ctx (retryConfig m) (smsCall active req)
             (zeroSMSResponse, w) e d).
  - cbn [smsCall snd]. rewrite Hcall. split; [reflexivity|]. destruct d; split; reflexivity.
  - exact Hn.
  - unfold retry.outcome. cbn [retry.after smsCall]. rewrite Hcall. reflexivity.
  - exact Hre.
  - exact Hd.
Qed.

End Send.


(** X13 on a backend that leaves the provider field empty. *)
Lemma SendSMS_first_success_witness :
  exists r,
    SendSMS (fixtures.registryOf fixtures.testConfig (fixtures.accepting "twilio"))
      retry.Background fixtures.testSMSRequest 0%nat
    = ((r, None), 1%nat, {| retry.calls := 1; retry.waits := [] |}) /\
    sms_Provider r = "twilio" /\
    MessageID r = "msg_123" /\ sms_Status r = "sent" /\
    SentAt r = 0 /\ sms_Cost r = 0%float /\
    sms_Currency r = EmptyString /\ sms_ProviderResponse r = None.
Proof.
  apply (SendSMS_first_success
           (fixtures.registryOf fixtures.testConfig (fixtures.accepting "twilio"))
           retry.Background (fixtures.accepting "twilio") fixtures.testSMSRequest
           0%nat 1%nat fixtures.acceptedSMS).
  - reflexivity.
  - reflexivity.
  - vm_compute. discriminate.
  - reflexivity.
Defined.



(** X17 on the same backend and a deadline that passes in the first wait. *)
Lemma SendSMS_cancelled_is_visible_witness :
  SendSMS (fixtures.registryOf fixtures.testConfig fixtures.busy)
    fixtures.expiresInFirstWait fixtures.testSMSRequest 0%nat
  = ((zeroSMSResponse, Some (sendError "SMS" 3 DeadlineExceeded)), 1%nat,
     {| retry.calls := 1; retry.waits := [1 * retry.Second] |})
  /\ Is (sendError "SMS" 3 DeadlineExceeded) DeadlineExceeded = true
  /\ Is (sendError "SMS" 3 DeadlineExceeded) ErrMaxAttemptsReached = false.
Proof.
  apply (SendSMS_cancelled_is_visible
           (fixtures.registryOf fixtures.testConfig fixtures.busy)
           fixtures.expiresInFirstWait fixtures.busy fixtures.testSMSRequest
           0%nat 1%nat zeroSMSResponse (HTTPError 503 "busy") retry.deadlineExceeded).
  - reflexivity.
  - reflexivity.
  - vm_compute. reflexivity.
  - reflexivity.
  - reflexivity.
  - reflexivity.
Defined.

End SendExtra.

(** ** model/message.go: rendering *)

Module StringFacts.

Lemma append_assoc (a b c : string) : (a +:+ b) +:+ c = a +:+ (b +:+ c).
Proof.
  induction a as [|x a IH]; [reflexivity|].
  change (String x ((a +:+ b) +:+ c) = String x (a +:+ (b +:+ c))). rewrite IH. reflexivity.
Qed.

Lemma length_append (a b : string) :
  String.length (a +:+ b) = (String.length a + String.length b)%nat.
Proof.
  induction a as [|x a IH]; [reflexivity|].
  change (S (String.length (a +:+ b)) = S (String.length a + String.length b)).
  rewrite IH. reflexivity.
Qed.

Lemma substring_prefix (a b : string) : substring 0 (String.length a) (a +:+ b) = a.
Proof.
  induction a as [|x a IH]; [destruct b; reflexivity|].
  change (String x (substring 0 (String.length a) (a +:+ b)) = String x a).
  rewrite IH. reflexivity.
Qed.

Lemma substring_all (a : string) : substring 0 (String.length a) a = a.
Proof.
  induction a as [|x a IH]; [reflexivity|].
  change (String x (substring 0 (String.length a) a) = String x a).
  rewrite IH. reflexivity.
Qed.

End StringFacts.

Module RenderExtra.
Import gostrings goerrors model.

(** The key [replacePlaceholder] cuts out of a placeholder. *)
Lemma placeholder_key (key : string) :
  substring 1 (String.length (placeholderOf key) - 2) (placeholderOf key) = key.
Proof.
  unfold placeholderOf.
  change (String.length (String lbrace (key +:+ String rbrace EmptyString)))
    with (S (String.length (key +:+ String rbrace EmptyString))).
  rewrite StringFacts.length_append.
  replace (S (String.length key + String.length (String rbrace EmptyString)) - 2)%nat
    with (String.length key) by (cbn [String.length]; lia).
  change (substring 1 (String.length key) (String lbrace (key +:+ String rbrace EmptyString)))
    with (substring 0 (String.length key) (key +:+ String rbrace EmptyString)).
  apply StringFacts.substring_prefix.
Qed.

Lemma replacePlaceholder_of_key (bag : gmap string value) (key : string) :
  replacePlaceholder bag (placeholderOf key)
  = match bag !! key with
    | Some v => Sprintf_v v
    | None => placeholderOf key
    end.
Proof. unfold replacePlaceholder. rewrite placeholder_key. reflexivity. Qed.

Section Scan.

Variable repl : string -> string.

(** Text without an opening brace is copied. *)
Lemma scan_plain (pre s : string) :
  forallChars notLbrace pre = true ->
  ReplaceAllStringFunc repl (pre +:+ s) None = pre +:+ ReplaceAllStringFunc repl s None.
Proof.
  induction pre as [|c pre IH]; intros H; [reflexivity|].
  cbn [forallChars] in H. apply andb_prop in H as [Hc Hpre].
  change (String c pre +:+ s) with (String c (pre +:+ s)).
  cbn [ReplaceAllStringFunc]. unfold notLbrace in Hc.
  destruct (Ascii.eqb c lbrace); [discriminate|].
  rewrite (IH Hpre). reflexivity.
Qed.

(** After an opening brace and the run [acc], a brace-free [key] and a
    closing brace complete the placeholder of [acc] followed by [key]. *)
Lemma scan_key (key : string) :
  forall acc s : string,
    forallChars notBrace key = true ->
    acc +:+ key <> EmptyString ->
    ReplaceAllStringFunc repl (key +:+ String rbrace s) (Some acc)
    = repl (placeholderOf (acc +:+ key)) +:+ ReplaceAllStringFunc repl s None.
Proof.
  induction key as [|c key IH]; intros acc s H Hne.
  - rewrite RenderProps.append_empty_r in *.
    change (EmptyString +:+ String rbrace s) with (String rbrace s).
    cbn [ReplaceAllStringFunc].
    change (Ascii.eqb rbrace lbrace) with false.
    change (Ascii.eqb rbrace rbrace) with true. cbv iota.
    destruct acc as [|a acc]; [contradiction|]. reflexivity.
  - cbn [forallChars] in H. apply andb_prop in H as [Hc Hkey].
    unfold notBrace in Hc. apply andb_prop in Hc as [Hl Hr].
    change (String c key +:+ String rbrace s) with (String c (key +:+ String rbrace s)).
    cbn [ReplaceAllStringFunc].
    destruct (Ascii.eqb c lbrace); [discriminate|].
    destruct (Ascii.eqb c rbrace); [discriminate|].
    rewrite (IH (acc +:+ String c EmptyString) s Hkey).
    + rewrite StringFacts.append_assoc. reflexivity.
    + rewrite StringFacts.append_assoc. exact Hne.
Qed.

(** Plain text, then a placeholder, then anything. *)
Lemma scan_placeholder (pre key post : string) :
  forallChars notLbrace pre = true ->
  forallChars notBrace key = true ->
  key <> EmptyString ->
  ReplaceAllStringFunc repl (pre +:+ placeholderOf key +:+ post) None
  = pre +:+ repl (placeholderOf key) +:+ ReplaceAllStringFunc repl post None.
Proof.
  intros Hpre Hkey Hne. rewrite (scan_plain pre _ Hpre). f_equal.
  unfold placeholderOf at 1.
  change (String lbrace (key +:+ String rbrace EmptyString) +:+ post)
    with (String lbrace ((key +:+ String rbrace EmptyString) +:+ post)).
  rewrite StringFacts.append_assoc.
  change (String rbrace EmptyString +:+ post) with (String rbrace post).
  cbn [ReplaceAllStringFunc]. change (Ascii.eqb lbrace lbrace) with true. cbv iota.
  apply (scan_key key EmptyString post Hkey). exact Hne.
Qed.

End Scan.

(** [Render] on a map that exists, the empty template included. *)
Lemma Render_on_bag (m : Message) (template : string) (l : loc)
    (d : gmap string value) (h : heap) :
  h !! l = Some d ->
  fst (Render m template (Some l) h)
  = ReplaceAllStringFunc (replacePlaceholder (d ∪ identityBag m)) template None.
Proof.
  intros H. destruct (String.eqb_spec template EmptyString) as [->|Hne]; [reflexivity|].
  rewrite (RenderProps.Render_effective_bag m template l d h Hne H). reflexivity.
Qed.

Lemma union_identity_twice (m : Message) (d : gmap string value) :
  d ∪ identityBag m ∪ identityBag m = d ∪ identityBag m.
Proof. rewrite <- (assoc_L (∪)), (idemp_L (∪)). reflexivity. Qed.

(** X18. Rendering again gives the same: on the heap the first call has
    left, a second call with the same arguments returns the same text and
    changes nothing more. *)
Theorem Render_idempotent (m : Message) (template : string) (l : loc)
    (d : gmap string value) (h : heap) :
  h !! l = Some d ->
  Render m template (Some l) (snd (Render m template (Some l) h))
  = Render m template (Some l) h.
Proof.
  intros H. destruct (String.eqb_spec template EmptyString) as [->|Hne]; [reflexivity|].
  rewrite (RenderProps.Render_effective_bag m template l d h Hne H). cbn [snd].
  rewrite (RenderProps.Render_effective_bag m template l (d ∪ identityBag m) _ Hne)
    by apply lookup_insert_eq.
  rewrite union_identity_twice, insert_insert_eq. reflexivity.
Qed.

(** X19. With a nil data bag [Render] works on a map of its own: the text
    is made from the message's three entries alone and every map of the
    heap is left as it was. *)
Theorem Render_nil_data_bag (m : Message) (template : string) (h : heap) (l : loc)
    (d : gmap string value) :
  h !! l = Some d ->
  snd (Render m template None h) !! l = Some d /\
  fst (Render m template None h)
  = ReplaceAllStringFunc (replacePlaceholder (identityBag m)) template None.
Proof.
  intros H. destruct (String.eqb_spec template EmptyString) as [->|Hne];
    [split; [exact H|reflexivity]|].
  assert (Hfresh : fresh (dom h) <> l).
  { intros Heq. apply (is_fresh (dom h)). rewrite Heq. apply elem_of_dom. eauto. }
  assert (E : Render m template None h
              = Render m template (Some (fresh (dom h))) (<[fresh (dom h) := ∅]> h)).
  { unfold Render.
    destruct (String.eqb_spec template EmptyString); [contradiction|reflexivity]. }
  rewrite E.
  rewrite (RenderProps.Render_effective_bag m template (fresh (dom h)) ∅ _ Hne)
    by apply lookup_insert_eq.
  cbn [fst snd]. rewrite (left_id_L ∅ (∪)). split; [|reflexivity].
  rewrite !lookup_insert_ne by exact Hfresh. exact H.
Qed.

(** X20. A template without an opening brace is returned as it is,
    whatever the data bag holds. *)
Theorem Render_without_placeholder (m : Message) (template : string) (data : mapref)
    (h : heap) :
  forallChars notLbrace template = true ->
  fst (Render m template data h) = template.
Proof.
  intros H. unfold Render.
  destruct (String.eqb_spec template EmptyString) as [->|Hne]; [reflexivity|].
  destruct data as [l|]; cbn [fst];
    rewrite <- (RenderProps.append_empty_r template) at 1;
    rewrite (scan_plain _ template EmptyString H); apply RenderProps.append_empty_r.
Qed.

(** X21. Rendering proceeds placeholder by placeholder: for a template that
    is plain text, then the placeholder of a variable, then a rest, the
    result is the plain text, then the value of the variable in the
    caller's map or else in the message's entries (its [%v] text, not
    scanned again) or, when it is in neither, the placeholder as it stands,
    then the rendering of the rest. *)
Theorem Render_placeholder (m : Message) (pre key post : string) (l : loc)
    (d : gmap string value) (h : heap) :
  h !! l = Some d ->
  forallChars notLbrace pre = true ->
  forallChars notBrace key = true ->
  key <> EmptyString ->
  fst (Render m (pre +:+ placeholderOf key +:+ post) (Some l) h)
  = pre
    +:+ match d !! key with
        | Some v => Sprintf_v v
        | None =>
            match identityBag m !! key with
            | Some v => Sprintf_v v
            | None => placeholderOf key
            end
        end
    +:+ fst (Render m post (Some l) h).
Proof.
  intros H Hpre Hkey Hne.
  rewrite !(Render_on_bag m _ l d h H).
  rewrite (scan_placeholder _ pre key post Hpre Hkey Hne).
  rewrite replacePlaceholder_of_key, lookup_union.
  destruct (d !! key) as [v|]; destruct (identityBag m !! key) as [v'|]; reflexivity.
Qed.

(** X18 on the data bag of the specification's example. *)
Lemma Render_idempotent_witness :
  Render fixtures.testMessage "Hello {name}, from {from}" (Some 1%positive)
    (snd (Render fixtures.testMessage "Hello {name}, from {from}" (Some 1%positive)
            fixtures.johnHeap))
  = Render fixtures.testMessage "Hello {name}, from {from}" (Some 1%positive)
      fixtures.johnHeap.
Proof.
  apply (Render_idempotent fixtures.testMessage "Hello {name}, from {from}" 1%positive
           fixtures.johnBag fixtures.johnHeap).
  reflexivity.
Defined.

(** X19 on a heap that holds the caller's other map. *)
Lemma Render_nil_data_bag_witness :
  snd (Render fixtures.testMessage "To: {to}" None fixtures.johnHeap) !! 1%positive
  = Some fixtures.johnBag /\
  fst (Render fixtures.testMessage "To: {to}" None fixtures.johnHeap)
  = ReplaceAllStringFunc (replacePlaceholder (identityBag fixtures.testMessage))
      "To: {to}" None.
Proof.
  apply (Render_nil_data_bag fixtures.testMessage "To: {to}" fixtures.johnHeap 1%positive
           fixtures.johnBag).
  reflexivity.
Defined.

(** X20 on a text with a closing brace only. *)
Lemma Render_without_placeholder_witness :
  fst (Render fixtures.testMessage "Reply STOP} to end" None ∅) = "Reply STOP} to end".
Proof.
  apply (Render_without_placeholder fixtures.testMessage "Reply STOP} to end" None ∅).
  reflexivity.
Defined.

(** X21 on the specification's example. *)
Lemma Render_placeholder_witness :
  fst (Render fixtures.testMessage
         ("Hello " +:+ placeholderOf "name" +:+ "! Your verification code is {code}.")
         (Some 1%positive) fixtures.johnHeap)
  = "Hello "
    +:+ match fixtures.johnBag !! "name" with
        | Some v => Sprintf_v v
        | None =>
            match identityBag fixtures.testMessage !! "name" with
            | Some v => Sprintf_v v
            | None => placeholderOf "name"
            end
        end
    +:+ fst (Render fixtures.testMessage "! Your verification code is {code}."
               (Some 1%positive) fixtures.johnHeap).
Proof.
  apply (Render_placeholder fixtures.testMessage "Hello " "name"
           "! Your verification code is {code}." 1%positive
           fixtures.johnBag fixtures.johnHeap).
  - reflexivity.
  - reflexivity.
  - reflexivity.
  - discriminate.
Defined.

End RenderExtra.

(** ** model/message.go: phone numbers *)

Module PhoneExtra.
Import gostrings goerrors model.

Lemma ValidatePhoneNumber_steps (s : string) :
  ValidatePhoneNumber s = plausible (cleaned s).
Proof. reflexivity. Qed.

Lemma RemoveAll_app (a b : string) (x : ascii) :
  RemoveAll (a +:+ b) x = RemoveAll a x +:+ RemoveAll b x.
Proof.
  induction a as [|c a IH]; [reflexivity|].
  change (String c a +:+ b) with (String c (a +:+ b)). cbn [RemoveAll].
  rewrite IH. destruct (Ascii.eqb c x); reflexivity.
Qed.

Lemma cleaned_app (a b : string) : cleaned (a +:+ b) = cleaned a +:+ cleaned b.
Proof. unfold cleaned. rewrite !RemoveAll_app. reflexivity. Qed.

Lemma isFormatting_cases (c : ascii) :
  isFormatting c = true -> c = " "%char \/ c = "-"%char \/ c = "("%char \/ c = ")"%char.
Proof.
  unfold isFormatting. intros H.
  destruct (Ascii.eqb_spec c " "); [auto|].
  destruct (Ascii.eqb_spec c "-"); [auto|].
  destruct (Ascii.eqb_spec c "("); [auto|].
  destruct (Ascii.eqb_spec c ")"); [auto|discriminate].
Qed.

Lemma cleaned_formatting (c : ascii) (s : string) :
  isFormatting c = true -> cleaned (String c s) = cleaned s.
Proof.
  intros H. destruct (isFormatting_cases c H) as [->|[->|[->| ->]]]; reflexivity.
Qed.

(** X22. Formatting characters do not count: a space, a hyphen or a
    parenthesis inserted anywhere in a number leaves the verdict of
    [ValidatePhoneNumber] as it is. *)
Theorem ValidatePhoneNumber_ignores_formatting (s1 s2 : string) (c : ascii) :
  isFormatting c = true ->
  ValidatePhoneNumber (s1 +:+ String c s2) = ValidatePhoneNumber (s1 +:+ s2).
Proof.
  intros H. rewrite !ValidatePhoneNumber_steps, !cleaned_app.
  rewrite (cleaned_formatting c s2 H). reflexivity.
Qed.

Lemma ValidatePhoneNumber_ignores_formatting_witness :
  ValidatePhoneNumber ("+1 (234" +:+ String ")" " 567-890")
  = ValidatePhoneNumber ("+1 (234" +:+ " 567-890").
Proof.
  apply (ValidatePhoneNumber_ignores_formatting "+1 (234" " 567-890" ")"). reflexivity.
Defined.

Lemma countDigits_RemoveAll (s : string) (x : ascii) :
  isDigit x = false -> countDigits (RemoveAll s x) = countDigits s.
Proof.
  intros Hx. induction s as [|c s IH]; [reflexivity|]. cbn [RemoveAll countDigits].
  destruct (Ascii.eqb_spec c x) as [->|_].
  - rewrite Hx. exact IH.
  - cbn [countDigits]. rewrite IH. reflexivity.
Qed.

Lemma forallChars_RemoveAll (P : ascii -> bool) (s : string) (x : ascii) :
  P x = true -> forallChars P (RemoveAll s x) = true -> forallChars P s = true.
Proof.
  intros Hx. induction s as [|c s IH]; [reflexivity|]. cbn [RemoveAll forallChars].
  destruct (Ascii.eqb_spec c x) as [->|_].
  - intros H. rewrite Hx, (IH H). reflexivity.
  - cbn [forallChars]. intros H. apply andb_prop in H as [-> H]. exact (IH H).
Qed.

Lemma cleaned_countDigits (s : string) : countDigits (cleaned s) = countDigits s.
Proof. unfold cleaned. rewrite !countDigits_RemoveAll; reflexivity. Qed.

Lemma cleaned_allowed (s : string) :
  forallChars allowedChar (cleaned s) = true -> forallChars allowedChar s = true.
Proof.
  unfold cleaned. intros H.
  repeat (apply forallChars_RemoveAll in H; [|reflexivity]). exact H.
Qed.

Lemma allDigits_facts (s : string) :
  allDigits s = true ->
  countDigits s = String.length s /\ forallChars allowedChar s = true.
Proof.
  induction s as [|c s IH]; [split; reflexivity|].
  cbn [allDigits countDigits forallChars String.length]. intros H.
  apply andb_prop in H as [Hc Hs]. destruct (IH Hs) as [-> ->].
  unfold allowedChar. rewrite Hc. split; reflexivity.
Qed.

Lemma matchDigits_allDigits (s : string) : matchDigits s = true -> allDigits s = true.
Proof. destruct s; [discriminate|intros H; exact H]. Qed.

Lemma prefix_empty (t : string) : String.prefix EmptyString t = true.
Proof. destruct t; reflexivity. Qed.

Lemma plausible_facts (t : string) :
  plausible t = true ->
  (8 <= countDigits t)%nat /\ forallChars allowedChar t = true.
Proof.
  unfold plausible, HasPrefix.
  destruct t as [|c t'].
  - cbn. discriminate.
  - cbn [String.prefix]. destruct (ascii_dec "+" c) as [<-|Hc].
    + rewrite prefix_empty.
      change (substring 1 (String.length (String "+" t') - 1) (String "+" t'))
        with (substring 0 (String.length t' - 0) t').
      rewrite Nat.sub_0_r, StringFacts.substring_all.
      destruct ((8 <=? String.length t')%nat) eqn:Hlen; [|cbn [andb]; discriminate].
      destruct (matchDigits t') eqn:Hm; [|cbn [andb]; discriminate]. intros _.
      destruct (allDigits_facts t' (matchDigits_allDigits t' Hm)) as [Hcount Hall].
      apply Nat.leb_le in Hlen. cbn [countDigits forallChars].
      change (isDigit "+") with false. change (allowedChar "+") with true.
      rewrite Hcount, Hall. split; [exact Hlen|reflexivity].
    + destruct ((8 <=? String.length (String c t'))%nat) eqn:Hlen; [|cbn [andb]; discriminate].
      destruct (matchDigits (String c t')) eqn:Hm; [|cbn [andb]; discriminate]. intros _.
      destruct (allDigits_facts _ (matchDigits_allDigits _ Hm)) as [Hcount Hall].
      apply Nat.leb_le in Hlen. rewrite Hcount, Hall. split; [exact Hlen|reflexivity].
Qed.

(** X23. What [ValidatePhoneNumber] accepts: a number it accepts has at
    least eight digits and is written with digits, spaces, hyphens,
    parentheses and plus signs only. *)
Theorem ValidatePhoneNumber_sound (s : string) :
  ValidatePhoneNumber s = true ->
  (8 <= countDigits s)%nat /\ forallChars allowedChar s = true.
Proof.
  rewrite ValidatePhoneNumber_steps. intros H.
  destruct (plausible_facts (cleaned s) H) as [Hc Ha].
  rewrite cleaned_countDigits in Hc. split; [exact Hc|apply cleaned_allowed, Ha].
Qed.

Lemma ValidatePhoneNumber_sound_witness :
  (8 <= countDigits "+1 (234) 567-890")%nat /\
  forallChars allowedChar "+1 (234) 567-890" = true.
Proof. apply (ValidatePhoneNumber_sound "+1 (234) 567-890"). reflexivity. Defined.

Lemma digit_not_formatting (c x : ascii) :
  isDigit c = true -> isDigit x = false -> Ascii.eqb c x = false.
Proof.
  intros Hc Hx. destruct (Ascii.eqb_spec c x) as [->|_]; [congruence|reflexivity].
Qed.

Lemma RemoveAll_digits (s : string) (x : ascii) :
  allDigits s = true -> isDigit x = false -> RemoveAll s x = s.
Proof.
  intros Hs Hx. induction s as [|c s IH]; [reflexivity|].
  cbn [allDigits] in Hs. apply andb_prop in Hs as [Hc Hs].
  cbn [RemoveAll]. rewrite (digit_not_formatting c x Hc Hx), (IH Hs). reflexivity.
Qed.

Lemma cleaned_digits (s : string) : allDigits s = true -> cleaned s = s.
Proof.
  intros H. unfold cleaned.
  rewrite (RemoveAll_digits s " " H), (RemoveAll_digits s "-" H),
    (RemoveAll_digits s "(" H), (RemoveAll_digits s ")" H); reflexivity.
Qed.

(** X24. What [ValidatePhoneNumber] requires: eight or more digits, with
    or without a plus sign in front, are accepted. *)
Theorem ValidatePhoneNumber_complete (digits : string) :
  allDigits digits = true ->
  (8 <= String.length digits)%nat ->
  ValidatePhoneNumber digits = true /\ ValidatePhoneNumber (String "+" digits) = true.
Proof.
  intros Hd Hlen. rewrite !ValidatePhoneNumber_steps.
  assert (Hplus : cleaned (String "+" digits) = String "+" digits).
  { change (cleaned (String "+" digits)) with (String "+"%char (cleaned digits)).
    rewrite (cleaned_digits digits Hd). reflexivity. }
  rewrite Hplus, (cleaned_digits digits Hd).
  assert (Hm : matchDigits digits = true).
  { destruct digits; [cbn in Hlen; lia|exact Hd]. }
  apply Nat.leb_le in Hlen. split.
  - unfold plausible, HasPrefix. destruct digits as [|c t']; [discriminate|].
    cbn [String.prefix]. destruct (ascii_dec "+" c) as [<-|_].
    + cbn [allDigits] in Hd. discriminate.
    + rewrite Hlen, Hm. reflexivity.
  - unfold plausible, HasPrefix. cbn [String.prefix].
    destruct (ascii_dec "+" "+") as [_|Hne]; [|contradiction].
    rewrite prefix_empty.
    destruct digits as [|c t']; [discriminate|].
    change (substring 1 (String.length (String "+" (String c t')) - 1)
              (String "+" (String c t')))
      with (substring 0 (String.length (String c t')) (String c t')).
    rewrite StringFacts.substring_all, Hlen, Hm. reflexivity.
Qed.

Lemma ValidatePhoneNumber_complete_witness :
  ValidatePhoneNumber "1234567890" = true /\ ValidatePhoneNumber "+1234567890" = true.
Proof.
  apply (ValidatePhoneNumber_complete "1234567890"); [reflexivity|].
  cbn. repeat constructor.
Defined.

End PhoneExtra.

(** ** config/config.go *)

Module ConfigExtra.
Import gostrings goerrors configfile.

(** X25. [ValidateProviderConfig] returns nil exactly when every required
    field is present and is not an empty string (a present value of
    another type passes). *)
Theorem ValidateProviderConfig_nil_iff (config : gmap string model.value)
    (requiredFields : list string) :
  ValidateProviderConfig config requiredFields = None
  <-> Forall (fieldOk config) requiredFields.
Proof.
  induction requiredFields as [|field rest IH]; cbn [ValidateProviderConfig].
  - split; [constructor|reflexivity].
  - destruct (config !! field) as [v|] eqn:E.
    + destruct (isEmptyString v) eqn:Ev.
      * split; [discriminate|]. intros H. inversion H as [|? ? (v' & Hv' & Hne) _]; subst.
        rewrite E in Hv'. inversion Hv'; subst. congruence.
      * rewrite IH. split.
        -- intros H. constructor; [exists v; auto|exact H].
        -- intros H. inversion H; assumption.
    + split; [discriminate|]. intros H. inversion H as [|? ? (v' & Hv' & _) _]; subst.
      rewrite E in Hv'. discriminate.
Qed.

(** X26. The error of [ValidateProviderConfig] is about the first required
    field that is missing or empty: the fields before it are all in order,
    and the error names it and says which of the two it is. *)
Theorem ValidateProviderConfig_first_problem (config : gmap string model.value)
    (requiredFields : list string) (err : error) :
  ValidateProviderConfig config requiredFields = Some err ->
  exists before field rest,
    requiredFields = (before ++ field :: rest)%list /\
    Forall (fieldOk config) before /\
    ((config !! field = None /\
      err = errorString ("missing required field: " +:+ field)) \/
     (exists v, config !! field = Some v /\ isEmptyString v = true /\
        err = errorString ("field " +:+ field +:+ " cannot be empty"))).
Proof.
  induction requiredFields as [|field rest IH]; cbn [ValidateProviderConfig];
    [discriminate|].
  destruct (config !! field) as [v|] eqn:E.
  - destruct (isEmptyString v) eqn:Ev.
    + intros H. inversion H; subst. exists [], field, rest.
      split; [reflexivity|]. split; [constructor|]. right. exists v. auto.
    + intros H. destruct (IH H) as (before & f & r & -> & Hok & Hf).
      exists (field :: before), f, r. split; [reflexivity|].
      split; [constructor; [exists v; auto|exact Hok]|exact Hf].
  - intros H. inversion H; subst. exists [], field, rest.
    split; [reflexivity|]. split; [constructor|]. left. auto.
Qed.

Lemma ValidateProviderConfig_first_problem_witness :
  exists before field rest,
    ["api_key"; "sender"; "secret"] = (before ++ field :: rest)%list /\
    Forall (fieldOk fixtures.provider1Section) before /\
    ((fixtures.provider1Section !! field = None /\
      errorString "field sender cannot be empty"
      = errorString ("missing required field: " +:+ field)) \/
     (exists v, fixtures.provider1Section !! field = Some v /\ isEmptyString v = true /\
        errorString "field sender cannot be empty"
        = errorString ("field " +:+ field +:+ " cannot be empty"))).
Proof.
  apply (ValidateProviderConfig_first_problem fixtures.provider1Section
           ["api_key"; "sender"; "secret"] (errorString "field sender cannot be empty")).
  reflexivity.
Defined.

(** X27. What an accepted configuration guarantees, and what it does not:
    [Validate] returning nil means a default provider is named and has a
    section, the timeout is positive, the templates are not empty and the
    attempt count is not negative, with a positive delay if it is positive.
    An attempt count of zero passes, and so does a section of the default
    provider that is not a map: [GetProviderConfig] finds it, and returns
    either its fields or the format error. *)
Theorem Validate_accepted (c : Config) :
  Validate c = None ->
  config.DefaultProvider (base c) <> EmptyString /\
  0 < config.HTTPTimeout (base c) /\
  0 <= config.RetryAttempts (base c) /\
  (0 < config.RetryAttempts (base c) -> 0 < config.RetryDelay (base c)) /\
  config.SMSTemplate (base c) <> EmptyString /\
  config.VoiceTemplate (base c) <> EmptyString /\
  ((exists fields,
      GetProviderConfig c (config.DefaultProvider (base c)) = (Some fields, None)) \/
   GetProviderConfig c (config.DefaultProvider (base c))
   = (None, Some (errorString ("invalid configuration format for provider "
                                 +:+ config.DefaultProvider (base c))))).
Proof.
  unfold Validate, GetProviderConfig.
  destruct (String.eqb_spec (config.DefaultProvider (base c)) EmptyString) as [|Hd];
    [discriminate|].
  destruct (Providers c) as [ps|]; [|discriminate].
  destruct ((size ps =? 0)%nat); [discriminate|].
  destruct (ps !! config.DefaultProvider (base c)) as [sect|]; [|discriminate].
  destruct (Z.leb_spec (config.HTTPTimeout (base c)) 0); [discriminate|].
  destruct (Z.ltb_spec (config.RetryAttempts (base c)) 0); [discriminate|].
  destruct (Z.ltb_spec 0 (config.RetryAttempts (base c)));
    destruct (Z.leb_spec (config.RetryDelay (base c)) 0); cbn [andb];
    try discriminate;
    (destruct (String.eqb_spec (config.SMSTemplate (base c)) EmptyString);
     [discriminate|];
     destruct (String.eqb_spec (config.VoiceTemplate (base c)) EmptyString);
     [discriminate|]; intros _;
     repeat (split; [first [assumption|lia]|]);
     destruct sect; [left; eexists; reflexivity|right; reflexivity]).
Qed.

Lemma Validate_accepted_witness :
  config.DefaultProvider fixtures.zeroAttempts <> EmptyString /\
  0 < config.HTTPTimeout fixtures.zeroAttempts /\
  0 <= config.RetryAttempts fixtures.zeroAttempts /\
  (0 < config.RetryAttempts fixtures.zeroAttempts
   -> 0 < config.RetryDelay fixtures.zeroAttempts) /\
  config.SMSTemplate fixtures.zeroAttempts <> EmptyString /\
  config.VoiceTemplate fixtures.zeroAttempts <> EmptyString /\
  ((exists fields,
      GetProviderConfig fixtures.zeroAttemptsFile "provider1" = (Some fields, None)) \/
   GetProviderConfig fixtures.zeroAttemptsFile "provider1"
   = (None, Some (errorString ("invalid configuration format for provider "
                                 +:+ "provider1")))).
Proof. apply (Validate_accepted fixtures.zeroAttemptsFile). reflexivity. Defined.

End ConfigExtra.

(** ** adapters/esms: the code read out of a message *)

Module EsmsExtra.
Import esms.




(** What one loop returns: the leftmost window of digits it has looked at. *)
Lemma firstWindow_some (length : nat) (message : string) (count : nat) :
  forall (i : nat) (otp : string),
    firstWindow length message i count = Some otp ->
    exists j,
      (i <= j < i + count)%nat /\
      otp = substring j length message /\
      allDigits otp = true /\
      forall j', (i <= j' < j)%nat -> allDigits (substring j' length message) = false.
Proof.
  induction count as [|count IH]; intros i otp H; cbn [firstWindow] in H; [discriminate|].
  destruct (allDigits (substring i length message)) eqn:E.
  - inversion H; subst. exists i. split; [lia|]. split; [reflexivity|].
    split; [exact E|]. intros j' Hj. lia.
  - destruct (IH (S i) otp H) as (j & Hj & -> & Hd & Hleft).
    exists j. split; [lia|]. split; [reflexivity|]. split; [exact Hd|].
    intros j' Hj'. destruct (Nat.eq_dec j' i) as [->|Hne]; [exact E|].
    apply Hleft. lia.
Qed.

Lemma firstWindow_none (length : nat) (message : string) (count : nat) :
  forall i : nat,
    firstWindow length message i count = None ->
    forall j, (i <= j < i + count)%nat -> allDigits (substring j length message) = false.
Proof.
  induction count as [|count IH]; intros i H j Hj; [lia|].
  cbn [firstWindow] in H.
  destruct (allDigits (substring i length message)) eqn:E; [discriminate|].
  destruct (Nat.eq_dec j i) as [->|Hne]; [exact E|].
  apply (IH (S i) H). lia.
Qed.



(** X29. Six digits come first: when the message holds six digits in a
    row anywhere, the result is the leftmost such run of six, even when a
    shorter code stands before it. *)
Theorem extractOTPFromMessage_six_first (message : string) (j : nat) :
  (j + 6 <= String.length message)%nat ->
  allDigits (substring j 6 message) = true ->
  exists j0,
    (j0 <= j)%nat /\
    extractOTPFromMessage message = substring j0 6 message /\
    allDigits (substring j0 6 message) = true /\
    forall j', (j' < j0)%nat -> allDigits (substring j' 6 message) = false.
Proof.
  intros Hj Hd. unfold extractOTPFromMessage.
  destruct (firstWindow 6 message 0 (iterations 6 message)) as [otp|] eqn:E6.
  - destruct (firstWindow_some _ _ _ _ _ E6) as (j0 & Hj0 & -> & Hd0 & Hleft).
    exists j0. split.
    + destruct (Nat.le_gt_cases j0 j) as [Hle|Hgt]; [exact Hle|].
      rewrite (Hleft j) in Hd by lia. discriminate.
    + split; [reflexivity|]. split; [exact Hd0|]. intros j' Hj'. apply Hleft. lia.
  - rewrite (firstWindow_none 6 message _ 0 E6 j) in Hd; [discriminate|].
    unfold iterations. lia.
Qed.

Lemma extractOTPFromMessage_six_first_witness :
  exists j0,
    (j0 <= 15)%nat /\
    extractOTPFromMessage "PIN 1234, code 7654321" = substring j0 6 "PIN 1234, code 7654321" /\
    allDigits (substring j0 6 "PIN 1234, code 7654321") = true /\
    forall j', (j' < j0)%nat ->
      allDigits (substring j' 6 "PIN 1234, code 7654321") = false.
Proof.
  apply (extractOTPFromMessage_six_first "PIN 1234, code 7654321" 15).
  - cbn. repeat constructor.
  - vm_compute. reflexivity.
Defined.

(** A code of five digits is cut to its first four. *)
Example extractOTPFromMessage_five_digits :
  extractOTPFromMessage "Your code is 12345" = "1234".
Proof. vm_compute. reflexivity. Qed.

End EsmsExtra.
